(** * Tomato smart-farm API: client library and Swagger proxy server

    A shallow embedding of the two JavaScript sources of the repository:

    - the browser client library ([Client]): one async wrapper per remote
      endpoint, the [fileToBase64] helper and the inert [setBaseUrl];
    - the Express documentation/proxy server ([Server]): the multipart
      helper [proxyFormData], the three typed proxy routes and the
      catch-all [ALL /proxy/*] route.

    JavaScript values are a small inductive type ([Js.Val]); strings are
    well-formed Unicode text held as its UTF-8 bytes (a string with an
    unpaired surrogate is outside the model); numbers are the integers.
    Asynchronous code is written in a state-and-exception monad whose
    state records every outbound [fetch], every console line and every
    HTTP response sent; the remote service is an arbitrary oracle. *)

From Stdlib Require Import String Ascii List ZArith Bool Lia DecimalString.
Import ListNotations.

Set Warnings "-register-all".

Local Open Scope list_scope.
Local Open Scope string_scope.

(* ================================================================== *)
(** * Strings *)
(* ================================================================== *)

Module Str.

(** The double-quote character, U+0022. *)
Definition dquote : ascii := "034"%char.

(** The backslash character, U+005C. *)
Definition backslash : ascii := "092"%char.

Definition quoted (s : string) : string :=
  String dquote (s ++ String dquote EmptyString).

Definition code (c : ascii) : nat := nat_of_ascii c.

Definition between (lo hi : nat) (c : ascii) : bool :=
  Nat.leb lo (code c) && Nat.leb (code c) hi.

Fixpoint mem (c : ascii) (s : string) : bool :=
  match s with
  | EmptyString => false
  | String d r => Ascii.eqb c d || mem c r
  end.

Fixpoint forallb (p : ascii -> bool) (s : string) : bool :=
  match s with
  | EmptyString => true
  | String c r => p c && forallb p r
  end.

Fixpoint join (sep : string) (l : list string) : string :=
  match l with
  | [] => EmptyString
  | [x] => x
  | x :: r => x ++ sep ++ join sep r
  end.

(** [s.split(c)] for a one-character separator: the segments between
    successive occurrences of [c]; never the empty list. *)
Fixpoint split (c : ascii) (s : string) : list string :=
  match s with
  | EmptyString => [EmptyString]
  | String d r =>
      if Ascii.eqb d c then EmptyString :: split c r
      else match split c r with
           | [] => [String d EmptyString]
           | seg :: segs => String d seg :: segs
           end
  end.

(** [Some rest] when [s = pat ++ rest]. *)
Fixpoint strip_prefix (pat s : string) : option string :=
  match pat, s with
  | EmptyString, _ => Some s
  | String a p, String b r => if Ascii.eqb a b then strip_prefix p r else None
  | String _ _, EmptyString => None
  end.

(** [s.replace(pat, rep)] with a string pattern: only the first
    occurrence of [pat], scanning from the left, is replaced; [s] is
    returned unchanged when [pat] does not occur. *)
Fixpoint replace (pat rep s : string) : string :=
  match strip_prefix pat s with
  | Some rest => rep ++ rest
  | None => match s with
            | EmptyString => EmptyString
            | String c r => String c (replace pat rep r)
            end
  end.

Definition hex_upper (n : nat) : ascii :=
  ascii_of_nat (if Nat.ltb n 10 then 48 + n else 55 + n).

Definition hex_lower (n : nat) : ascii :=
  ascii_of_nat (if Nat.ltb n 10 then 48 + n else 87 + n).

(** Decimal rendering of an integer, as a template literal or
    [JSON.stringify] writes an integral number of magnitude below
    10^21 (from there on JavaScript writes an exponent; fractions are
    outside the model). *)
Definition decimal (n : Z) : string := NilZero.string_of_int (Z.to_int n).

End Str.

(* ================================================================== *)
(** * JavaScript values *)
(* ================================================================== *)

Module Js.

(** An object is its own enumerable string-keyed properties in
    enumeration order; keys are pairwise distinct. *)
Inductive Val : Type :=
| Undefined
| Null
| Bool (b : bool)
| Num (n : Z)
| Str (s : string)
| Arr (items : list Val)
| Obj (props : list (string * Val)).

(** A thrown value / rejection reason: an [Error] with its [message]. *)
Record Error : Type := mkError { err_name : string; err_message : string }.

(** ToBoolean. *)
Definition truthy (v : Val) : bool :=
  match v with
  | Undefined | Null => false
  | Bool b => b
  | Num n => negb (Z.eqb n 0)
  | Str s => negb (String.eqb s EmptyString)
  | Arr _ | Obj _ => true
  end.

Fixpoint lookup (k : string) (ps : list (string * Val)) : option Val :=
  match ps with
  | [] => None
  | (k', v) :: r => if String.eqb k k' then Some v else lookup k r
  end.

Definition has_own (v : Val) (k : string) : bool :=
  match v with
  | Obj ps => match lookup k ps with Some _ => true | None => false end
  | _ => false
  end.

(** [const { k } = v]: throws a [TypeError] when [v] is [undefined] or
    [null]; otherwise reads property [k] ([undefined] when absent).
    Only the property names [image], [mimeType] and [message] are read
    this way, none of which a primitive or an array carries. *)
Definition destructure (what k : string) (v : Val) : Error + Val :=
  match v with
  | Undefined =>
      inl (mkError "TypeError"
             ("Cannot destructure property '" ++ k ++ "' of '" ++ what
                ++ "' as it is undefined."))
  | Null =>
      inl (mkError "TypeError"
             ("Cannot destructure property '" ++ k ++ "' of '" ++ what
                ++ "' as it is null."))
  | Obj ps => inr (match lookup k ps with Some x => x | None => Undefined end)
  | _ => inr Undefined
  end.

(** [o.k = x] on an ordinary object: an existing property keeps its
    place, a new one is appended. *)
Fixpoint assign (k : string) (x : Val) (ps : list (string * Val))
  : list (string * Val) :=
  match ps with
  | [] => [(k, x)]
  | (k', v) :: r =>
      if String.eqb k k' then (k', x) :: r else (k', v) :: assign k x r
  end.

Definition nullish (v : Val) : bool :=
  match v with Undefined | Null => true | _ => false end.

(** [a || b]. *)
Definition or_else (a b : Val) : Val := if truthy a then a else b.

(** A parameter default [p = d]: used exactly when the argument is
    [undefined] (or omitted). *)
Definition default_arg (a d : Val) : Val :=
  match a with Undefined => d | _ => a end.

(** ** JSON.stringify *)

Definition escape_char (c : ascii) : string :=
  let n := Str.code c in
  if Nat.eqb n 34 then String Str.backslash (String Str.dquote EmptyString)
  else if Nat.eqb n 92 then
    String Str.backslash (String Str.backslash EmptyString)
  else if Nat.eqb n 8 then "\b"
  else if Nat.eqb n 9 then "\t"
  else if Nat.eqb n 10 then "\n"
  else if Nat.eqb n 12 then "\f"
  else if Nat.eqb n 13 then "\r"
  else if Nat.ltb n 32 then
    "\u00" ++ String (Str.hex_lower (n / 16))
                (String (Str.hex_lower (n mod 16)) EmptyString)
  else String c EmptyString.

Fixpoint escape (s : string) : string :=
  match s with
  | EmptyString => EmptyString
  | String c r => escape_char c ++ escape r
  end.

(** QuoteJSONString. *)
Definition quote (s : string) : string := Str.quoted (escape s).

(** [JSON.stringify(v)] without replacer or indentation. The result is
    [undefined] ([None]) for [undefined]; inside an array [undefined]
    is written [null]; inside an object a property whose value is
    [undefined] is left out. *)
Fixpoint stringify (v : Val) : option string :=
  match v with
  | Undefined => None
  | Null => Some "null"
  | Bool b => Some (if b then "true" else "false")
  | Num n => Some (Str.decimal n)
  | Str s => Some (quote s)
  | Arr items =>
      Some ("[" ++ Str.join ","
               (map (fun x => match stringify x with
                              | Some t => t
                              | None => "null"
                              end) items) ++ "]")
  | Obj props =>
      Some ("{" ++ Str.join ","
               (flat_map (fun p => match stringify (snd p) with
                                   | Some t => [quote (fst p) ++ ":" ++ t]
                                   | None => []
                                   end) props) ++ "}")
  end.

(** ** encodeURIComponent *)

Definition uri_unreserved (c : ascii) : bool :=
  Str.between 65 90 c || Str.between 97 122 c || Str.between 48 57 c
  || Str.mem c "-_.!~*'()".

Definition percent (c : ascii) : string :=
  String "%" (String (Str.hex_upper (Str.code c / 16))
                (String (Str.hex_upper (Str.code c mod 16)) EmptyString)).

Fixpoint encodeURIComponent (s : string) : string :=
  match s with
  | EmptyString => EmptyString
  | String c r =>
      (if uri_unreserved c then String c EmptyString else percent c)
        ++ encodeURIComponent r
  end.

End Js.

(* ================================================================== *)
(** * The network, the console and the monad of async code *)
(* ================================================================== *)

Module Net.

(** A [File]/[Blob] of the browser. *)
Record Blob : Type := mkBlob { blob_type : string; blob_bytes : string }.

(** One entry value of a form object (the browser's [FormData], the
    [form-data] package on the server): a browser blob appended as it
    is, or a buffer appended with [filename] and [contentType]
    options. *)
Inductive FormValue : Type :=
| FormBlob (b : Blob)
| FormBuffer (bytes filename contentType : string).

(** The [body] member of the init object as the caller built it: a
    string, or a form object. What the fetch implementation writes on
    the wire for a form object is not modelled. *)
Inductive Body : Type :=
| TextBody (text : string)
| FormBody (entries : list (string * FormValue)).

Inductive Headers : Type :=
| NoHeaders
| HeaderList (l : list (string * string))
| FormDataHeaders.   (* [formData.getHeaders()] *)

(** The arguments of one [fetch(url, init)] call. A [body] of
    [undefined] is no body. *)
Record Request : Type := mkRequest {
  url : string;
  method : string;
  headers : Headers;
  body : option Body
}.

(** A received response: its status and what [response.json()] does,
    which is to throw (the body is not JSON) or to give the decoded
    value. *)
Record Response : Type := mkResponse {
  status : Z;
  decoded : Js.Error + Js.Val
}.

(** The remote service: what the [n]-th fetch of a run (counting from
    0) meets, a rejection (connection failure, timeout) or a
    response. *)
Definition Remote : Type := nat -> Request -> Js.Error + Response.

Inductive LogLine : Type :=
| Warn (text : string)
| LogError (text : string) (err : Js.Error).

(** An HTTP response sent by the server: [res.status(code).json(v)]. *)
Record Reply : Type := mkReply { code : Z; payload : Js.Val }.

Record Trace : Type := mkTrace {
  fetches : list Request;
  console : list LogLine;
  sent : list Reply
}.

Definition start : Trace := mkTrace [] [] [].

Definition M (A : Type) : Type := Remote -> Trace -> (Js.Error + A) * Trace.

Definition ret {A} (a : A) : M A := fun _ t => (inr a, t).

Definition throw {A} (e : Js.Error) : M A := fun _ t => (inl e, t).

Definition bind {A B} (m : M A) (k : A -> M B) : M B :=
  fun remote t =>
    match m remote t with
    | (inr a, t') => k a remote t'
    | (inl e, t') => (inl e, t')
    end.

(** [try { m } catch (error) { h error }]. *)
Definition try_catch {A} (m : M A) (h : Js.Error -> M A) : M A :=
  fun remote t =>
    match m remote t with
    | (inr a, t') => (inr a, t')
    | (inl e, t') => h e remote t'
    end.

Definition lift {A} (r : Js.Error + A) : M A :=
  match r with inl e => throw e | inr a => ret a end.

(** [await fetch(url, init)]. *)
Definition fetch (rq : Request) : M Response :=
  fun remote t =>
    (remote (List.length (fetches t)) rq,
     mkTrace (fetches t ++ [rq]) (console t) (sent t)).

(** [await response.json()]. *)
Definition json (r : Response) : M Js.Val := lift (decoded r).

Definition log (l : LogLine) : M unit :=
  fun _ t => (inr tt, mkTrace (fetches t) (console t ++ [l]) (sent t)).

(** [res.status(code).json(v)]. *)
Definition res_json (c : Z) (v : Js.Val) : M unit :=
  fun _ t => (inr tt, mkTrace (fetches t) (console t) (sent t ++ [mkReply c v])).

(** [fetch(url)] without an init object is a GET without body. *)
Definition GET (u : string) : Request := mkRequest u "GET" NoHeaders None.

Definition json_headers : Headers :=
  HeaderList [("Content-Type", "application/json")].

(** [body: JSON.stringify(v)]. *)
Definition json_body (v : Js.Val) : option Body :=
  option_map TextBody (Js.stringify v).

End Net.

Declare Scope js_scope.
Delimit Scope js_scope with js.
Notation "x <- m ;; k" := (Net.bind m (fun x => k))
  (at level 61, m at next level, right associativity) : js_scope.
Notation "m ;;; k" := (Net.bind m (fun _ => k))
  (at level 61, right associativity) : js_scope.

(* ================================================================== *)
(** * The client library *)
(* ================================================================== *)

Module Client.
Import Net.
Local Open Scope js_scope.

Definition BASE_URL : string := "https://n8n.seedfarm.co.kr/webhook".

(** A numeric parameter with a default, [p = d]; [None] is an omitted
    argument. *)
Definition number_or (a : option Z) (d : Z) : Z :=
  match a with Some n => n | None => d end.

(** [fetch(u, { method: 'POST' })]. *)
Definition POST (u : string) : Request := mkRequest u "POST" NoHeaders None.

(** [fetch(u, { method: 'POST', headers: {'Content-Type':
    'application/json'}, body: JSON.stringify(v) })]. *)
Definition POST_json (u : string) (v : Js.Val) : Request :=
  mkRequest u "POST" json_headers (json_body v).

(** ** Data API *)

Definition getRealtimeData : M Js.Val :=
  response <- fetch (GET (BASE_URL ++ "/data-realtime")) ;;
  json response.

Definition getHistoryData (hours : option Z) : M Js.Val :=
  let hours := number_or hours 1 in
  response <- fetch (GET (BASE_URL ++ "/data-history?hours="
                            ++ Str.decimal hours)) ;;
  json response.

Definition getDailySummary : M Js.Val :=
  response <- fetch (GET (BASE_URL ++ "/data-summary")) ;;
  json response.

(** ** Camera API *)

Definition captureNow : M Js.Val :=
  response <- fetch (POST (BASE_URL ++ "/camera-capture")) ;;
  json response.

Definition captureTest : M Js.Val :=
  response <- fetch (POST (BASE_URL ++ "/capture-test")) ;;
  json response.

Definition startMonitoring : M Js.Val :=
  response <- fetch (POST (BASE_URL ++ "/camera-start")) ;;
  json response.

Definition stopMonitoring : M Js.Val :=
  response <- fetch (POST (BASE_URL ++ "/camera-stop")) ;;
  json response.

Definition getCameraStatus : M Js.Val :=
  response <- fetch (GET (BASE_URL ++ "/camera-status")) ;;
  json response.

Definition setCaptureInterval (interval : Js.Val) : M Js.Val :=
  response <- fetch (POST_json (BASE_URL ++ "/camera-interval")
                       (Js.Obj [("interval", interval)])) ;;
  json response.

Definition setWhiteBalance (mode : Js.Val) : M Js.Val :=
  response <- fetch (POST_json (BASE_URL ++ "/camera-white-balance")
                       (Js.Obj [("mode", mode)])) ;;
  json response.

(** ** AI API *)

Definition sendChatMessage (message sessionId : Js.Val) : M Js.Val :=
  let sessionId := Js.default_arg sessionId Js.Null in
  let body := [("message", message)] in
  let body :=
    if Js.truthy sessionId then Js.assign "session_id" sessionId body
    else body in
  response <- fetch (POST_json (BASE_URL ++ "/chat-message") (Js.Obj body)) ;;
  json response.

Definition analyzeImage (imageFile : Blob) : M Js.Val :=
  let formData := [("image", FormBlob imageFile)] in
  response <- fetch (mkRequest (BASE_URL ++ "/capture-analyze") "POST"
                       NoHeaders (Some (FormBody formData))) ;;
  json response.

Definition diagnoseDisease (base64Image mimeType : Js.Val) : M Js.Val :=
  let mimeType := Js.default_arg mimeType (Js.Str "image/jpeg") in
  response <- fetch (POST_json (BASE_URL ++ "/disease-diagnosis")
                       (Js.Obj [("image", base64Image);
                                ("mimeType", mimeType)])) ;;
  json response.

(** ** Chat History API *)

Definition getChatHistoryList (page limit : option Z) : M Js.Val :=
  let page := number_or page 1 in
  let limit := number_or limit 10 in
  response <- fetch (GET (BASE_URL ++ "/chat-message/history?page="
                            ++ Str.decimal page ++ "&limit="
                            ++ Str.decimal limit)) ;;
  json response.

Definition getChatHistoryDetail (threadId : string) : M Js.Val :=
  response <- fetch (GET (BASE_URL ++ "/chat-message/history/detail?threadId="
                            ++ Js.encodeURIComponent threadId)) ;;
  json response.

Definition deleteChatHistory (threadId : string) : M Js.Val :=
  response <- fetch (mkRequest
                       (BASE_URL ++ "/chat-message/history/delete?threadId="
                          ++ Js.encodeURIComponent threadId)
                       "DELETE" NoHeaders None) ;;
  json response.

(** ** Market API *)

Definition getMarketPrice : M Js.Val :=
  response <- fetch (GET (BASE_URL ++ "/market-price")) ;;
  json response.

Definition getPriceCompare : M Js.Val :=
  response <- fetch (GET (BASE_URL ++ "/price-compare")) ;;
  json response.

Definition getPriceHistory (start_ end_ : string) : M Js.Val :=
  response <- fetch (GET (BASE_URL ++ "/price-history?start=" ++ start_
                            ++ "&end=" ++ end_)) ;;
  json response.

(** ** Prediction API *)

Definition predictYield (params : Js.Val) : M Js.Val :=
  response <- fetch (POST_json (BASE_URL ++ "/yield-prediction") params) ;;
  json response.

(** ** Diary API *)

Definition getDiaryList (days : option Z) : M Js.Val :=
  let days := number_or days 7 in
  response <- fetch (GET (BASE_URL ++ "/app/diary?days="
                            ++ Str.decimal days)) ;;
  json response.

Definition saveDiary (entry : Js.Val) : M Js.Val :=
  response <- fetch (POST_json (BASE_URL ++ "/app/diary") entry) ;;
  json response.

(** ** Home API *)

Definition getHomeData : M Js.Val :=
  response <- fetch (GET (BASE_URL ++ "/app/home")) ;;
  json response.

Definition appChat (message apiKey : Js.Val) : M Js.Val :=
  let apiKey := Js.default_arg apiKey (Js.Str "tomato-farm-2024") in
  response <- fetch (POST_json (BASE_URL ++ "/app/chat")
                       (Js.Obj [("message", message);
                                ("api_key", apiKey)])) ;;
  json response.

Definition appAnalyze (file : Blob) : M Js.Val :=
  let formData := [("file", FormBlob file)] in
  response <- fetch (mkRequest (BASE_URL ++ "/app/analyze") "POST"
                       NoHeaders (Some (FormBody formData))) ;;
  json response.

(** ** Utility functions *)

(** What a [FileReader] fires after [readAsDataURL(file)]: [load] once
    [result] holds the whole data URI, [error] with the event handed
    to [onerror], or an event no handler is registered for. *)
Inductive ReaderEvent : Type :=
| OnLoad (result : string)
| OnError (error : Js.Val)
| OtherEvent.

Definition FileReader : Type := Blob -> list ReaderEvent.

Inductive Promise : Type :=
| Pending
| Fulfilled (value : Js.Val)
| Rejected (reason : Js.Val).

(** A promise settles once; later [resolve]/[reject] calls are
    ignored. *)
Definition resolve (v : Js.Val) (p : Promise) : Promise :=
  match p with Pending => Fulfilled v | _ => p end.

Definition reject (e : Js.Val) (p : Promise) : Promise :=
  match p with Pending => Rejected e | _ => p end.

(** [reader.result.split(',')[1]]. *)
Definition after_comma (result : string) : Js.Val :=
  match nth_error (Str.split "," result) 1 with
  | Some base64 => Js.Str base64
  | None => Js.Undefined
  end.

Definition on_event (p : Promise) (ev : ReaderEvent) : Promise :=
  match ev with
  | OnLoad result => let base64 := after_comma result in resolve base64 p
  | OnError error => reject error p
  | OtherEvent => p
  end.

Definition fileToBase64 (reader : FileReader) (file : Blob) : Promise :=
  fold_left on_event (reader file) Pending.

Definition setBaseUrl (url : Js.Val) : M Js.Val :=
  log (Warn "setBaseUrl은 현재 구현되지 않았습니다. BASE_URL을 직접 수정하세요.") ;;;
  ret Js.Undefined.

(** ** The exported endpoint functions, with their arguments *)

Inductive Call : Type :=
| GetRealtimeData
| GetHistoryData (hours : option Z)
| GetDailySummary
| CaptureNow
| CaptureTest
| StartMonitoring
| StopMonitoring
| GetCameraStatus
| SetCaptureInterval (interval : Js.Val)
| SetWhiteBalance (mode : Js.Val)
| SendChatMessage (message sessionId : Js.Val)
| AnalyzeImage (imageFile : Blob)
| DiagnoseDisease (base64Image mimeType : Js.Val)
| GetChatHistoryList (page limit : option Z)
| GetChatHistoryDetail (threadId : string)
| DeleteChatHistory (threadId : string)
| GetMarketPrice
| GetPriceCompare
| GetPriceHistory (start_ end_ : string)
| PredictYield (params : Js.Val)
| GetDiaryList (days : option Z)
| SaveDiary (entry : Js.Val)
| GetHomeData
| AppChat (message apiKey : Js.Val)
| AppAnalyze (file : Blob).

Definition invoke (c : Call) : M Js.Val :=
  match c with
  | GetRealtimeData => getRealtimeData
  | GetHistoryData hours => getHistoryData hours
  | GetDailySummary => getDailySummary
  | CaptureNow => captureNow
  | CaptureTest => captureTest
  | StartMonitoring => startMonitoring
  | StopMonitoring => stopMonitoring
  | GetCameraStatus => getCameraStatus
  | SetCaptureInterval interval => setCaptureInterval interval
  | SetWhiteBalance mode => setWhiteBalance mode
  | SendChatMessage message sessionId => sendChatMessage message sessionId
  | AnalyzeImage imageFile => analyzeImage imageFile
  | DiagnoseDisease base64Image mimeType => diagnoseDisease base64Image mimeType
  | GetChatHistoryList page limit => getChatHistoryList page limit
  | GetChatHistoryDetail threadId => getChatHistoryDetail threadId
  | DeleteChatHistory threadId => deleteChatHistory threadId
  | GetMarketPrice => getMarketPrice
  | GetPriceCompare => getPriceCompare
  | GetPriceHistory start_ end_ => getPriceHistory start_ end_
  | PredictYield params => predictYield params
  | GetDiaryList days => getDiaryList days
  | SaveDiary entry => saveDiary entry
  | GetHomeData => getHomeData
  | AppChat message apiKey => appChat message apiKey
  | AppAnalyze file => appAnalyze file
  end.

End Client.

(* ================================================================== *)
(** * The documentation and proxy server *)
(* ================================================================== *)

Module Server.
Local Open Scope js_scope.

(** [req.file] as [multer]'s memory storage leaves it. *)
Record UploadedFile : Type := mkFile {
  buffer : string;
  originalname : string;
  mimetype : string
}.

(** The parts of an Express request the handlers read. [file] is
    [undefined] ([None]) unless [upload.single('image')] found the
    attachment; [body] is what the body parsers left in [req.body]. *)
Record Req : Type := mkReq {
  method : string;
  path : string;
  file : option UploadedFile;
  body : Js.Val
}.

Section Config.

(** [process.env.N8N_URL]: unset, or a string. *)
Variable N8N_URL : option string.

Definition N8N_BASE_URL : string :=
  match N8N_URL with
  | Some u => if String.eqb u EmptyString
              then "https://n8n.seedfarm.co.kr/webhook" else u
  | None => "https://n8n.seedfarm.co.kr/webhook"
  end.

Definition hint : string :=
  "n8n 서버에 연결할 수 없습니다. 서버 상태를 확인해주세요.".

Definition file_required : string :=
  "이미지 파일이 필요합니다. FormData의 " ++ Str.quoted "image"
    ++ " 필드에 파일을 첨부해주세요.".

Definition image_required : string :=
  "Base64 인코딩된 이미지가 필요합니다. JSON body의 " ++ Str.quoted "image"
    ++ " 필드를 확인해주세요.".

Definition message_required : string := "메시지가 필요합니다.".

Definition proxyFormData (req : Req) (targetPath : string) : Net.M unit :=
  Net.try_catch
    (match file req with
     | None =>
         Net.res_json 400
           (Js.Obj [("success", Js.Bool false);
                    ("error", Js.Str file_required)])
     | Some f =>
         let formData :=
           [("image",
             Net.FormBuffer (buffer f) (originalname f) (mimetype f))] in
         response <- Net.fetch
                       (Net.mkRequest (N8N_BASE_URL ++ targetPath) "POST"
                          Net.FormDataHeaders
                          (Some (Net.FormBody formData))) ;;
         data <- Net.json response ;;
         Net.res_json (Net.status response) data
     end)
    (fun error =>
       Net.log (Net.LogError ("프록시 오류 (" ++ targetPath ++ "):") error) ;;;
       Net.res_json 500
         (Js.Obj [("success", Js.Bool false);
                  ("error", Js.Str (Js.err_message error));
                  ("hint", Js.Str hint)])).

(** [POST /proxy/capture-analyze], behind [upload.single('image')]. *)
Definition capture_analyze (req : Req) : Net.M unit :=
  proxyFormData req "/capture-analyze".

(** [POST /proxy/disease-diagnosis]. *)
Definition disease_diagnosis (req : Req) : Net.M unit :=
  Net.try_catch
    (image <- Net.lift (Js.destructure "req.body" "image" (body req)) ;;
     mimeType <- Net.lift (Js.destructure "req.body" "mimeType" (body req)) ;;
     if negb (Js.truthy image) then
       Net.res_json 400
         (Js.Obj [("success", Js.Bool false);
                  ("error", Js.Str image_required)])
     else
       response <- Net.fetch
                     (Net.mkRequest (N8N_BASE_URL ++ "/disease-diagnosis")
                        "POST" Net.json_headers
                        (Net.json_body
                           (Js.Obj [("image", image);
                                    ("mimeType",
                                     Js.or_else mimeType
                                       (Js.Str "image/jpeg"))]))) ;;
       data <- Net.json response ;;
       Net.res_json (Net.status response) data)
    (fun error =>
       Net.log (Net.LogError "프록시 오류 (disease-diagnosis):" error) ;;;
       Net.res_json 500
         (Js.Obj [("success", Js.Bool false);
                  ("error", Js.Str (Js.err_message error));
                  ("hint", Js.Str hint)])).

(** [POST /proxy/chat-message]. *)
Definition chat_message (req : Req) : Net.M unit :=
  Net.try_catch
    (message <- Net.lift (Js.destructure "req.body" "message" (body req)) ;;
     if negb (Js.truthy message) then
       Net.res_json 400
         (Js.Obj [("success", Js.Bool false);
                  ("error", Js.Str message_required)])
     else
       response <- Net.fetch
                     (Net.mkRequest (N8N_BASE_URL ++ "/chat-message")
                        "POST" Net.json_headers
                        (Net.json_body (Js.Obj [("message", message)]))) ;;
       data <- Net.json response ;;
       Net.res_json (Net.status response) data)
    (fun error =>
       Net.log (Net.LogError "프록시 오류 (chat-message):" error) ;;;
       Net.res_json 500
         (Js.Obj [("success", Js.Bool false);
                  ("error", Js.Str (Js.err_message error))])).

(** [ALL /proxy/*]. *)
Definition proxy_all (req : Req) : Net.M unit :=
  Net.try_catch
    (let targetPath := Str.replace "/proxy" EmptyString (path req) in
     let url := N8N_BASE_URL ++ targetPath in
     let options_body :=
       if negb (String.eqb (method req) "GET") && Js.truthy (body req)
       then Net.json_body (body req) else None in
     response <- Net.fetch
                   (Net.mkRequest url (method req) Net.json_headers
                      options_body) ;;
     data <- Net.json response ;;
     Net.res_json (Net.status response) data)
    (fun error =>
       Net.log (Net.LogError "프록시 오류:" error) ;;;
       Net.res_json 500
         (Js.Obj [("success", Js.Bool false);
                  ("error", Js.Str (Js.err_message error))])).

(** The proxy routes in registration order. *)
Inductive Route : Type :=
| CaptureAnalyze
| DiseaseDiagnosis
| ChatMessage
| ProxyAll.

Definition handler (r : Route) (req : Req) : Net.M unit :=
  match r with
  | CaptureAnalyze => capture_analyze req
  | DiseaseDiagnosis => disease_diagnosis req
  | ChatMessage => chat_message req
  | ProxyAll => proxy_all req
  end.

End Config.

(** ** The documentation routes *)

Section Docs.

Variable N8N_URL : option string.

(** [process.env.PORT]: unset, or a string. *)
Variable env_PORT : option string.

(** The OpenAPI document read from [swagger/swagger.yaml] at startup. *)
Variable swaggerDocument : Js.Val.

(** [process.env.PORT || 3300]; the value is only ever written into
    template literals, where the number 3300 reads [3300]. *)
Definition PORT : string :=
  match env_PORT with
  | Some p => if String.eqb p EmptyString then "3300" else p
  | None => "3300"
  end.

(** [res.json(v)]: the status stays at its default, 200. *)
Definition res_json_ok (v : Js.Val) : Net.M unit := Net.res_json 200 v.

(** [GET /], the health check. *)
Definition health (req : Req) : Net.M unit :=
  res_json_ok
    (Js.Obj
       [("status", Js.Str "ok");
        ("version", Js.Str "2.0.0");
        ("message", Js.Str "토마토 스마트팜 API 문서 서버");
        ("swagger_ui", Js.Str ("http://localhost:" ++ PORT ++ "/api-docs"));
        ("api_server", Js.Str (N8N_BASE_URL N8N_URL));
        ("features",
         Js.Obj
           [("knowledge_base",
             Js.Str "농촌진흥청 농업기술길잡이 106 (병해 8종, 해충 6종, 영양장애 10종, 생리장해 18종)");
            ("yolo_analysis",
             Js.Str "4-class 토마토 분류 (Ready, Not_Ready, Disease_Bad, Truss)");
            ("yield_prediction",
             Js.Str "Random Forest 모델 (R² = 0.9084)")]);
        ("endpoints",
         Js.Obj
           [("capture_analyze",
             Js.Str ("POST " ++ N8N_BASE_URL N8N_URL ++ "/capture-analyze"));
            ("disease_diagnosis",
             Js.Str ("POST " ++ N8N_BASE_URL N8N_URL ++ "/disease-diagnosis"));
            ("chat_message",
             Js.Str ("POST " ++ N8N_BASE_URL N8N_URL ++ "/chat-message"))])]).

(** [GET /api-docs.json]. *)
Definition api_docs_json (req : Req) : Net.M unit :=
  res_json_ok swaggerDocument.

End Docs.

End Server.

(* ================================================================== *)
(** * Vocabulary of the specification *)
(* ================================================================== *)

Module Spec.
Import Server.

(** The one input a typed proxy route requires. *)
Inductive Field : Type :=
| Attachment
| BodyField (k : string).

Definition required (r : Route) : option Field :=
  match r with
  | CaptureAnalyze => Some Attachment
  | DiseaseDiagnosis => Some (BodyField "image")
  | ChatMessage => Some (BodyField "message")
  | ProxyAll => None
  end.

Definition present (f : Field) (req : Req) : bool :=
  match f with
  | Attachment => match file req with Some _ => true | None => false end
  | BodyField k => Js.has_own (body req) k
  end.

(** The text of the 400 response of each typed route. *)
Definition missing_input (r : Route) : string :=
  match r with
  | CaptureAnalyze => file_required
  | DiseaseDiagnosis => image_required
  | ChatMessage => message_required
  | ProxyAll => EmptyString
  end.

(** The routes whose [catch] clause adds the unreachable-server hint. *)
Definition with_hint (r : Route) : bool :=
  match r with
  | CaptureAnalyze | DiseaseDiagnosis => true
  | ChatMessage | ProxyAll => false
  end.

(** The body of the 500 response of route [r] for the caught [error]. *)
Definition failure_payload (r : Route) (error : Js.Error) : Js.Val :=
  Js.Obj ([("success", Js.Bool false);
           ("error", Js.Str (Js.err_message error))]
            ++ (if with_hint r then [("hint", Js.Str hint)] else []))%list.

(** A forward that fails with [e]: the fetch is rejected, or the
    response does not decode. *)
Definition forward_fails (outcome : Js.Error + Net.Response) (e : Js.Error)
  : Prop :=
  outcome = inl e \/ exists st, outcome = inr (Net.mkResponse st (inl e)).

(** The documented chat request bodies, as JSON text:
    [{"message":m}] and [{"message":m,"session_id":s}]. *)
Definition chat_body (m : string) : string :=
  "{" ++ Str.quoted "message" ++ ":" ++ Js.quote m ++ "}".

Definition chat_body_with_session (m s : string) : string :=
  "{" ++ Str.quoted "message" ++ ":" ++ Js.quote m ++ ","
    ++ Str.quoted "session_id" ++ ":" ++ Js.quote s ++ "}".

(** The base64 alphabet with its padding character. *)
Definition base64_char (c : ascii) : bool :=
  Str.between 65 90 c || Str.between 97 122 c || Str.between 48 57 c
  || Str.mem c "+/=".

(** Characters that cannot delimit a query parameter, a query or a
    fragment: those [encodeURIComponent] leaves alone, and the [%] of
    an escape. *)
Definition uri_inert (c : ascii) : bool :=
  Js.uri_unreserved c || Ascii.eqb c "%".

(** A run of events in which no handler-bearing event occurs. *)
Definition unhandled (evs : list Client.ReaderEvent) : Prop :=
  Forall (fun ev => ev = Client.OtherEvent) evs.

(** [pat] occurs somewhere in [s]. *)
Fixpoint occurs (pat s : string) : bool :=
  match Str.strip_prefix pat s with
  | Some _ => true
  | None => match s with
            | EmptyString => false
            | String _ r => occurs pat r
            end
  end.

(** The first event of a run that has a handler, if any. *)
Fixpoint first_handled (evs : list Client.ReaderEvent)
  : option Client.ReaderEvent :=
  match evs with
  | [] => None
  | Client.OtherEvent :: r => first_handled r
  | ev :: _ => Some ev
  end.

(** The 256 characters. *)
Definition all_ascii : list ascii := map ascii_of_nat (seq 0 256).

(** [a] is an initial segment of [b]. *)
Definition starts (a b : string) : bool :=
  match Str.strip_prefix a b with Some _ => true | None => false end.

(** A character code [f] in which no code word starts another: checked
    over all pairs of distinct characters. *)
Definition prefix_free (f : ascii -> string) : bool :=
  List.forallb
    (fun c1 =>
       List.forallb
         (fun c2 => Ascii.eqb c1 c2 || negb (starts (f c1) (f c2)))
         all_ascii)
    all_ascii.

(** The encoding of one character by [encodeURIComponent]. *)
Definition uri_code (c : ascii) : string :=
  if Js.uri_unreserved c then String c EmptyString else Js.percent c.

(** The diagnosis request body as JSON text, for an image and a MIME
    type that need no escaping: [{"image":b,"mimeType":t}]. *)
Definition diagnosis_body (b t : string) : string :=
  "{" ++ Str.quoted "image" ++ ":" ++ Str.quoted b ++ ","
    ++ Str.quoted "mimeType" ++ ":" ++ Str.quoted t ++ "}".

(** Property [k] of an object; [undefined] when there is none. *)
Definition prop (k : string) (v : Js.Val) : Js.Val :=
  match v with
  | Js.Obj ps => match Js.lookup k ps with Some x => x | None => Js.Undefined end
  | _ => Js.Undefined
  end.

(** The key under which the health check advertises a typed route. *)
Definition endpoint_name (r : Route) : string :=
  match r with
  | CaptureAnalyze => "capture_analyze"
  | DiseaseDiagnosis => "disease_diagnosis"
  | ChatMessage => "chat_message"
  | ProxyAll => EmptyString
  end.

(** The remote path a typed route forwards to. *)
Definition target (r : Route) : string :=
  match r with
  | CaptureAnalyze => "/capture-analyze"
  | DiseaseDiagnosis => "/disease-diagnosis"
  | ChatMessage => "/chat-message"
  | ProxyAll => EmptyString
  end.

(** Lower case of an ASCII letter. *)
Definition lower (c : ascii) : ascii :=
  if Str.between 65 90 c then ascii_of_nat (Str.code c + 32) else c.

(** [Some rest] when [s] is [pat] followed by [rest], letters compared
    without regard to case. *)
Fixpoint strip_prefix_ci (pat s : string) : option string :=
  match pat, s with
  | EmptyString, _ => Some s
  | String a p, String b r =>
      if Ascii.eqb (lower a) (lower b) then strip_prefix_ci p r else None
  | String _ _, EmptyString => None
  end.

(** The path suffix of a request that reaches the generic route:
    Express 4 matches the pattern [/proxy/*] without regard to case, so
    the path is six characters spelling [/proxy] in any case, then a
    suffix that starts with a slash. *)
Definition route_suffix (path : string) : option string :=
  match strip_prefix_ci "/proxy" path with
  | Some rest => if prefix "/" rest then Some rest else None
  | None => None
  end.

(** [req.body] as [express.json()] leaves it: the parsed body of the
    incoming request, the empty object when the request has none. *)
Definition parsed_body (incoming : option Js.Val) : Js.Val :=
  match incoming with
  | Some v => v
  | None => Js.Obj []
  end.

(** The forms a request of the client library takes: a read or a
    removal is bare; a POST carries nothing, JSON text with the JSON
    content type, or a multipart form with no header of its own. *)
Definition client_form (rq : Net.Request) : Prop :=
  ((Net.method rq = "GET" \/ Net.method rq = "DELETE")
   /\ Net.headers rq = Net.NoHeaders /\ Net.body rq = None)
  \/ (Net.method rq = "POST"
      /\ match Net.body rq with
         | Some (Net.TextBody _) => Net.headers rq = Net.json_headers
         | Some (Net.FormBody _) => Net.headers rq = Net.NoHeaders
         | None => True
         end).

End Spec.

(* ================================================================== *)
(** * Sample environments *)
(* ================================================================== *)

Module Sample.

(** A remote that cannot be reached. *)
Definition unreachable : Net.Remote :=
  fun _ _ => inl (Js.mkError "TypeError" "fetch failed").

(** A remote that answers every request with [status] and the JSON
    value [v]. *)
Definition answering (status : Z) (v : Js.Val) : Net.Remote :=
  fun _ _ => inr (Net.mkResponse status (inr v)).

(** A remote that answers with a body that is not JSON. *)
Definition garbled (status : Z) : Net.Remote :=
  fun _ _ =>
    inr (Net.mkResponse status
           (inl (Js.mkError "SyntaxError" "Unexpected token < in JSON"))).

Definition png : Net.Blob := Net.mkBlob "image/png" "ABC".

(** A reader that loads [png] after a progress event. *)
Definition loading : Client.FileReader :=
  fun _ => [Client.OtherEvent; Client.OnLoad "data:image/png;base64,QUJD"].

(** A reader whose read fails. *)
Definition failing : Client.FileReader :=
  fun _ => [Client.OnError (Js.Obj [("type", Js.Str "error")])].

End Sample.

(* ================================================================== *)
(** * Properties *)
(* ================================================================== *)

Example stringify_ex :
  Js.stringify (Js.Obj [("a", Js.Num 1); ("b", Js.Undefined);
                        ("c", Js.Arr [Js.Undefined; Js.Str "x"])])
  = Some ("{" ++ Str.quoted "a" ++ ":1," ++ Str.quoted "c" ++ ":[null,"
            ++ Str.quoted "x" ++ "]}").
Proof. reflexivity. Qed.

Example split_ex :
  Str.split "," "a,b,,c" = ["a"; "b"; EmptyString; "c"].
Proof. reflexivity. Qed.

Example replace_ex :
  Str.replace "/proxy" EmptyString "/a/proxy/b/proxy" = "/a/b/proxy".
Proof. reflexivity. Qed.

Example encode_ex :
  Js.encodeURIComponent "a&b=c?d e" = "a%26b%3Dc%3Fd%20e".
Proof. reflexivity. Qed.

(** ** Strings *)

Section StringFacts.

Lemma strip_prefix_app (p r : string) : Str.strip_prefix p (p ++ r) = Some r.
Proof.
  induction p as [|a p IH]; simpl.
  - reflexivity.
  - now rewrite Ascii.eqb_refl.
Qed.

Lemma replace_unfold (pat rep s : string) :
  Str.replace pat rep s =
  match Str.strip_prefix pat s with
  | Some rest => rep ++ rest
  | None => match s with
            | EmptyString => EmptyString
            | String c r => String c (Str.replace pat rep r)
            end
  end.
Proof. destruct s; reflexivity. Qed.

(** Replacing a leading occurrence removes exactly that prefix. *)
Lemma replace_prefix (pat rep r : string) :
  Str.replace pat rep (pat ++ r) = rep ++ r.
Proof. now rewrite replace_unfold, strip_prefix_app. Qed.

Lemma split_no_sep (c : ascii) (s : string) :
  Str.mem c s = false -> Str.split c s = [s].
Proof.
  induction s as [|d s IH]; simpl; intros H.
  - reflexivity.
  - apply orb_false_iff in H as [Hd Hs].
    rewrite Ascii.eqb_sym, Hd, (IH Hs). reflexivity.
Qed.

Lemma split_app (c : ascii) (a b : string) :
  Str.mem c a = false ->
  Str.split c (a ++ String c b) = a :: Str.split c b.
Proof.
  induction a as [|d a IH]; simpl; intros H.
  - now rewrite Ascii.eqb_refl.
  - apply orb_false_iff in H as [Hd Ha].
    rewrite Ascii.eqb_sym, Hd, (IH Ha). reflexivity.
Qed.

Lemma mem_app (c : ascii) (a b : string) :
  Str.mem c (a ++ b) = Str.mem c a || Str.mem c b.
Proof.
  induction a as [|d a IH]; simpl.
  - reflexivity.
  - now rewrite IH, orb_assoc.
Qed.

Lemma forallb_app (p : ascii -> bool) (a b : string) :
  Str.forallb p (a ++ b) = Str.forallb p a && Str.forallb p b.
Proof.
  induction a as [|d a IH]; simpl.
  - reflexivity.
  - now rewrite IH, andb_assoc.
Qed.

Lemma forallb_not_mem (p : ascii -> bool) (c : ascii) (s : string) :
  p c = false -> Str.forallb p s = true -> Str.mem c s = false.
Proof.
  intros Hc. induction s as [|d s IH]; simpl; intros H.
  - reflexivity.
  - apply andb_true_iff in H as [Hd Hs].
    rewrite (IH Hs), orb_false_r.
    destruct (Ascii.eqb_spec c d) as [->|]; [congruence | reflexivity].
Qed.

Lemma app_assoc_str (a b c : string) : (a ++ b) ++ c = a ++ (b ++ c).
Proof. induction a as [|d a IH]; simpl; [reflexivity | now rewrite IH]. Qed.

Lemma prefix_app (p r : string) : prefix p (p ++ r) = true.
Proof.
  induction p as [|a p IH]; simpl.
  - now destruct r.
  - destruct (ascii_dec a a); [exact IH | congruence].
Qed.

End StringFacts.

(** ** encodeURIComponent *)

Section Encoding.

Lemma encode_char_inert (c : ascii) :
  Str.forallb Spec.uri_inert
    (if Js.uri_unreserved c then String c EmptyString else Js.percent c)
  = true.
Proof. destruct c as [[] [] [] [] [] [] [] []]; reflexivity. Qed.

(** Every character of an encoded component is unreserved or belongs
    to a percent escape. *)
Lemma encodeURIComponent_inert (s : string) :
  Str.forallb Spec.uri_inert (Js.encodeURIComponent s) = true.
Proof.
  induction s as [|c s IH]; simpl.
  - reflexivity.
  - now rewrite forallb_app, encode_char_inert, IH.
Qed.

Lemma encodeURIComponent_no (c : ascii) (s : string) :
  Spec.uri_inert c = false -> Str.mem c (Js.encodeURIComponent s) = false.
Proof.
  intros Hc. apply (forallb_not_mem Spec.uri_inert); [exact Hc|].
  apply encodeURIComponent_inert.
Qed.

End Encoding.


(** ** The client library *)

Section ClientFacts.

Import Net Client.

(** What running [fetch] followed by [response.json()] amounts to. *)
Lemma fetch_json_run (rq : Request) (remote : Remote) (t : Trace) :
  Net.bind (fetch rq) json remote t =
  (match remote (List.length (fetches t)) rq with
   | inl e => inl e
   | inr rsp => decoded rsp
   end,
   mkTrace (fetches t ++ [rq])%list (console t) (sent t)).
Proof.
  unfold Net.bind, fetch, json, lift.
  destruct (remote (List.length (fetches t)) rq) as [e|rsp]; [reflexivity|].
  destruct (decoded rsp); reflexivity.
Qed.

(** Every endpoint function is one fetch, against the base URL, followed
    by the decoding of the response. *)
Lemma invoke_shape (c : Call) :
  exists rq, invoke c = Net.bind (fetch rq) json
             /\ prefix BASE_URL (url rq) = true.
Proof. destruct c; eexists; split; reflexivity. Qed.

Lemma sendChatMessage_request (message sessionId : Js.Val)
      (remote : Remote) (t : Trace) :
  fetches (snd (sendChatMessage message sessionId remote t)) =
  (fetches t ++
    [POST_json (BASE_URL ++ "/chat-message")
       (Js.Obj (if Js.truthy (Js.default_arg sessionId Js.Null)
                then [("message", message);
                      ("session_id", Js.default_arg sessionId Js.Null)]
                else [("message", message)]))])%list.
Proof.
  unfold sendChatMessage. rewrite fetch_json_run. simpl.
  destruct (Js.truthy (Js.default_arg sessionId Js.Null)); reflexivity.
Qed.

End ClientFacts.

(** C7. Every endpoint function of the client library issues exactly one
    request; when the remote answers, the function returns what decoding
    the response gives, whatever the status code (the status is never
    read); a rejected fetch or a failed decoding is the rejection of the
    function itself; nothing is retried. *)
Theorem client_returns_decoded_body (c : Client.Call)
        (remote : Net.Remote) (t : Net.Trace) :
  exists rq,
    Net.fetches (snd (Client.invoke c remote t)) = (Net.fetches t ++ [rq])%list
    /\ (forall e, remote (List.length (Net.fetches t)) rq = inl e ->
                  fst (Client.invoke c remote t) = inl e)
    /\ (forall st dec,
           remote (List.length (Net.fetches t)) rq
           = inr (Net.mkResponse st dec) ->
           fst (Client.invoke c remote t) = dec).
Proof.
  destruct (invoke_shape c) as [rq [-> _]]. exists rq.
  rewrite fetch_json_run. simpl. repeat split.
  - intros e ->. reflexivity.
  - intros st dec ->. reflexivity.
Qed.

(** C6. [setBaseUrl] returns after one console warning and changes
    nothing else; every endpoint function called afterwards issues the
    request it would have issued without the call, and that request
    targets [BASE_URL]. *)
Theorem setBaseUrl_is_inert (u : Js.Val) (remote : Net.Remote) (t : Net.Trace) :
  Client.setBaseUrl u remote t
  = (inr Js.Undefined,
     Net.mkTrace (Net.fetches t)
       (Net.console t ++
          [Net.Warn "setBaseUrl은 현재 구현되지 않았습니다. BASE_URL을 직접 수정하세요."])%list
       (Net.sent t))
  /\ forall c : Client.Call,
      exists rq,
        Net.fetches (snd (Client.invoke c remote
                            (snd (Client.setBaseUrl u remote t))))
        = (Net.fetches t ++ [rq])%list
        /\ Net.fetches (snd (Client.invoke c remote t)) = (Net.fetches t ++ [rq])%list
        /\ prefix Client.BASE_URL (Net.url rq) = true.
Proof.
  split; [reflexivity|].
  intros c. destruct (invoke_shape c) as [rq [-> Hp]]. exists rq.
  rewrite !fetch_json_run. simpl. auto.
Qed.

(** ** Chat request bodies *)

Section ChatBodies.

(** Normalise nested concatenations to the right. *)
Ltac reassoc := repeat (progress (rewrite ?app_assoc_str; simpl)).

Lemma truthy_nonempty (s : string) :
  s <> EmptyString -> Js.truthy (Js.Str s) = true.
Proof. destruct s; [congruence | reflexivity]. Qed.

Lemma json_body_message (m : string) :
  Net.json_body (Js.Obj [("message", Js.Str m)])
  = Some (Net.TextBody (Spec.chat_body m)).
Proof.
  unfold Net.json_body, Spec.chat_body. simpl. reflexivity.
Qed.

Lemma json_body_message_session (m s : string) :
  Net.json_body (Js.Obj [("message", Js.Str m); ("session_id", Js.Str s)])
  = Some (Net.TextBody (Spec.chat_body_with_session m s)).
Proof.
  unfold Net.json_body, Spec.chat_body_with_session. simpl.
  reassoc. reflexivity.
Qed.

End ChatBodies.

(** C4, amended. For every message string [m] and every non-empty
    session id string [s], [sendChatMessage(m, s)] sends one POST to
    [/chat-message] whose body is the JSON text
    [{"message":m,"session_id":s}]; when the session id is omitted
    ([undefined]) or [null], the body is [{"message":m}], without a
    [session_id] key. *)
Theorem sendChatMessage_body (m s : string)
        (remote : Net.Remote) (t : Net.Trace) :
  s <> EmptyString ->
  Net.fetches (snd (Client.sendChatMessage (Js.Str m) (Js.Str s) remote t))
  = (Net.fetches t ++
       [Net.mkRequest (Client.BASE_URL ++ "/chat-message") "POST"
          Net.json_headers
          (Some (Net.TextBody (Spec.chat_body_with_session m s)))])%list
  /\ forall sessionId,
      sessionId = Js.Undefined \/ sessionId = Js.Null ->
      Net.fetches (snd (Client.sendChatMessage (Js.Str m) sessionId remote t))
      = (Net.fetches t ++
           [Net.mkRequest (Client.BASE_URL ++ "/chat-message") "POST"
              Net.json_headers (Some (Net.TextBody (Spec.chat_body m)))])%list.
Proof.
  intros Hs. split.
  - rewrite sendChatMessage_request.
    change (Js.default_arg (Js.Str s) Js.Null) with (Js.Str s).
    rewrite (truthy_nonempty s Hs). unfold Client.POST_json.
    now rewrite json_body_message_session.
  - intros sessionId [-> | ->]; rewrite sendChatMessage_request;
      unfold Client.POST_json; simpl Js.truthy; cbv iota;
      now rewrite json_body_message.
Qed.

Lemma sendChatMessage_body_witness :
  "s1" <> EmptyString
  /\ Net.fetches (snd (Client.sendChatMessage (Js.Str "hi") (Js.Str "s1")
                      Sample.unreachable Net.start))
  = [Net.mkRequest "https://n8n.seedfarm.co.kr/webhook/chat-message" "POST"
       Net.json_headers
       (Some (Net.TextBody
                ("{" ++ Str.quoted "message" ++ ":" ++ Str.quoted "hi" ++ ","
                   ++ Str.quoted "session_id" ++ ":" ++ Str.quoted "s1"
                   ++ "}")))].
Proof.
  split; [discriminate|].
  refine (proj1 (sendChatMessage_body "hi" "s1" Sample.unreachable Net.start _)).
  discriminate.
Defined.

(** The claim C4 as first stated fails for the empty session id: the
    body sent for the message [hi] and the empty string as session id
    is not the two-key object with an empty [session_id]. *)
Lemma sendChatMessage_empty_session_not_sent :
  Net.fetches (snd (Client.sendChatMessage (Js.Str "hi") (Js.Str EmptyString)
                      Sample.unreachable Net.start))
  <> [Net.mkRequest (Client.BASE_URL ++ "/chat-message") "POST"
        Net.json_headers
        (Some (Net.TextBody
                 (Spec.chat_body_with_session "hi" EmptyString)))].
Proof. vm_compute. discriminate. Qed.

(** C10. With the empty string as session id, [sendChatMessage] hands
    [JSON.stringify] the object [{ message }] alone, so the body sent is
    [{"message":m}] and carries no [session_id] key. *)
Theorem sendChatMessage_empty_session (remote : Net.Remote) (t : Net.Trace) :
  (forall message : Js.Val,
      Net.fetches (snd (Client.sendChatMessage message (Js.Str EmptyString)
                          remote t))
      = (Net.fetches t ++
           [Client.POST_json (Client.BASE_URL ++ "/chat-message")
              (Js.Obj [("message", message)])])%list)
  /\ (forall m : string,
         Net.fetches (snd (Client.sendChatMessage (Js.Str m)
                             (Js.Str EmptyString) remote t))
         = (Net.fetches t ++
              [Net.mkRequest (Client.BASE_URL ++ "/chat-message") "POST"
                 Net.json_headers
                 (Some (Net.TextBody (Spec.chat_body m)))])%list).
Proof.
  split; intros; rewrite sendChatMessage_request; simpl Js.truthy; cbv iota.
  - reflexivity.
  - unfold Client.POST_json. now rewrite json_body_message.
Qed.

(** ** Thread identifiers in URLs *)

(** C9. [getChatHistoryDetail] and [deleteChatHistory] issue one request
    whose URL is the fixed path and [threadId=] followed by
    [encodeURIComponent(threadId)]. The encoded identifier holds no [&],
    [?], [=] or [#], so the query of the URL is the single parameter
    [threadId]: splitting it at [&] gives one piece, and splitting that
    piece at [=] gives the name and the encoded identifier. *)
Theorem threadId_is_percent_encoded (threadId : string)
        (remote : Net.Remote) (t : Net.Trace) :
  let id := Js.encodeURIComponent threadId in
  Net.fetches (snd (Client.getChatHistoryDetail threadId remote t))
  = (Net.fetches t ++
       [Net.GET (Client.BASE_URL ++ "/chat-message/history/detail?threadId="
                   ++ id)])%list
  /\ Net.fetches (snd (Client.deleteChatHistory threadId remote t))
     = (Net.fetches t ++
          [Net.mkRequest
             (Client.BASE_URL ++ "/chat-message/history/delete?threadId="
                ++ id)
             "DELETE" Net.NoHeaders None])%list
  /\ Str.forallb Spec.uri_inert id = true
  /\ Str.mem "&" id = false /\ Str.mem "?" id = false
  /\ Str.mem "=" id = false /\ Str.mem "#" id = false
  /\ Str.split "&" ("threadId=" ++ id) = ["threadId=" ++ id]
  /\ Str.split "=" ("threadId=" ++ id) = ["threadId"; id].
Proof.
  intros id.
  assert (Hamp : Str.mem "&" id = false)
    by (apply encodeURIComponent_no; reflexivity).
  assert (Heq : Str.mem "=" id = false)
    by (apply encodeURIComponent_no; reflexivity).
  repeat split.
  - unfold Client.getChatHistoryDetail. now rewrite fetch_json_run.
  - unfold Client.deleteChatHistory. now rewrite fetch_json_run.
  - apply encodeURIComponent_inert.
  - exact Hamp.
  - apply encodeURIComponent_no; reflexivity.
  - exact Heq.
  - apply encodeURIComponent_no; reflexivity.
  - apply split_no_sep. rewrite mem_app, Hamp. reflexivity.
  - change ("threadId=" ++ id) with ("threadId" ++ String "=" id).
    rewrite split_app by reflexivity. now rewrite split_no_sep.
Qed.

Example threadId_injection_ex :
  Net.fetches (snd (Client.deleteChatHistory "a&admin=1?x#y"
                      Sample.unreachable Net.start))
  = [Net.mkRequest
       "https://n8n.seedfarm.co.kr/webhook/chat-message/history/delete?threadId=a%26admin%3D1%3Fx%23y"
       "DELETE" Net.NoHeaders None].
Proof. reflexivity. Qed.

(** ** The base64 helper *)

Section Base64.

Import Client.

Lemma settled_stays (evs : list ReaderEvent) (p : Promise) :
  p <> Pending -> fold_left on_event evs p = p.
Proof.
  revert p. induction evs as [|ev evs IH]; simpl; intros p Hp.
  - reflexivity.
  - assert (Hstep : on_event p ev = p)
      by (destruct ev, p; simpl; congruence).
    rewrite Hstep. now apply IH.
Qed.

Lemma unhandled_skipped (pre rest : list ReaderEvent) (p : Promise) :
  Spec.unhandled pre ->
  fold_left on_event (pre ++ rest) p = fold_left on_event rest p.
Proof.
  intros H. induction H as [|ev pre -> _ IH]; simpl.
  - reflexivity.
  - exact IH.
Qed.

(** The first [load] or [error] event settles the promise for good. *)
Lemma load_settles (result : string) (post : list ReaderEvent) :
  fold_left on_event (OnLoad result :: post) Pending
  = Fulfilled (after_comma result).
Proof. cbn [fold_left on_event resolve]. now apply settled_stays. Qed.

Lemma error_settles (error : Js.Val) (post : list ReaderEvent) :
  fold_left on_event (OnError error :: post) Pending = Rejected error.
Proof. cbn [fold_left on_event reject]. now apply settled_stays. Qed.

Lemma base64_no_comma (payload : string) :
  Str.forallb Spec.base64_char payload = true -> Str.mem "," payload = false.
Proof. apply forallb_not_mem. reflexivity. Qed.

(** The segment after the first comma of a data URI is its payload. *)
Lemma after_comma_data_uri (mime payload : string) :
  Str.mem "," mime = false ->
  Str.mem "," payload = false ->
  after_comma ("data:" ++ mime ++ ";base64," ++ payload) = Js.Str payload.
Proof.
  intros Hm Hp. unfold after_comma.
  replace ("data:" ++ mime ++ ";base64," ++ payload)
    with (("data:" ++ mime ++ ";base64") ++ String "," payload)
    by (now rewrite !app_assoc_str).
  rewrite split_app.
  - now rewrite (split_no_sep _ _ Hp).
  - rewrite !mem_app, Hm. reflexivity.
Qed.

End Base64.

(** C5. When the read of [file] completes with the data URI
    [data:<mime>;base64,<payload>] (a MIME type holds no comma, the
    payload is base64 text), [fileToBase64] fulfils with exactly
    [<payload>]; when the read fails, it rejects with the error handed
    to [onerror] and never fulfils. Events without a handler, before or
    after, change nothing. *)
Theorem fileToBase64_payload_or_rejection
        (reader : Client.FileReader) (file : Net.Blob)
        (pre post : list Client.ReaderEvent) :
  Spec.unhandled pre ->
  (forall mime payload : string,
      Str.mem "," mime = false ->
      Str.forallb Spec.base64_char payload = true ->
      reader file
      = (pre ++ Client.OnLoad ("data:" ++ mime ++ ";base64," ++ payload)
             :: post)%list ->
      Client.fileToBase64 reader file = Client.Fulfilled (Js.Str payload))
  /\ (forall error : Js.Val,
         reader file = (pre ++ Client.OnError error :: post)%list ->
         Client.fileToBase64 reader file = Client.Rejected error).
Proof.
  intros Hpre. unfold Client.fileToBase64. split.
  - intros mime payload Hm Hp ->.
    rewrite (unhandled_skipped _ _ _ Hpre), load_settles.
    now rewrite (after_comma_data_uri _ _ Hm (base64_no_comma _ Hp)).
  - intros error ->.
    now rewrite (unhandled_skipped _ _ _ Hpre), error_settles.
Qed.

Lemma fileToBase64_payload_or_rejection_witness :
  Spec.unhandled [Client.OtherEvent]
  /\ Client.fileToBase64 Sample.loading Sample.png
     = Client.Fulfilled (Js.Str "QUJD")
  /\ Client.fileToBase64 Sample.failing Sample.png
     = Client.Rejected (Js.Obj [("type", Js.Str "error")]).
Proof.
  split; [repeat constructor|]. split.
  - refine (proj1 (fileToBase64_payload_or_rejection Sample.loading Sample.png
                     [Client.OtherEvent] [] _) "image/png" "QUJD" _ _ _);
      [repeat constructor | reflexivity | reflexivity | reflexivity].
  - refine (proj2 (fileToBase64_payload_or_rejection Sample.failing Sample.png
                     [] [] _) _ _);
      [constructor | reflexivity].
Defined.

(** ** The proxy server *)

Section ServerFacts.

Import Net Server.

Variable N8N_URL : option string.

Lemma unchanged_no_new_fetch (t : Trace) (rq : Request) :
  (fetches t ++ [rq])%list <> fetches t.
Proof.
  intros H. apply (f_equal (@List.length Request)) in H.
  rewrite length_app in H. simpl in H. lia.
Qed.

Lemma truthy_stringify (v : Js.Val) :
  Js.truthy v = true -> exists text, Js.stringify v = Some text.
Proof. destruct v; simpl; intros H; try discriminate; eauto. Qed.

(** The forward of a typed or generic route, once its request is built:
    one fetch, the decoding, the relay; a failure of either goes to the
    [catch] clause [h]. *)
Lemma forward_run (rq : Request) (h : Js.Error -> M unit)
      (remote : Remote) (t : Trace) :
  try_catch
    (response <- fetch rq ;;
     data <- json response ;;
     res_json (status response) data)%js h remote t
  = match remote (List.length (fetches t)) rq with
    | inl e => h e remote (mkTrace (fetches t ++ [rq]) (console t) (sent t))
    | inr rsp =>
        match decoded rsp with
        | inl e =>
            h e remote (mkTrace (fetches t ++ [rq]) (console t) (sent t))
        | inr data =>
            (inr tt,
             mkTrace (fetches t ++ [rq]) (console t)
               (sent t ++ [mkReply (status rsp) data]))
        end
    end.
Proof.
  unfold try_catch, Net.bind, fetch, json, lift, res_json.
  destruct (remote (List.length (fetches t)) rq) as [e|rsp]; [reflexivity|].
  destruct (decoded rsp); reflexivity.
Qed.

Lemma chat_message_run (req : Req) (ps : list (string * Js.Val))
      (message : Js.Val) (remote : Remote) (t : Trace) :
  body req = Js.Obj ps ->
  Js.lookup "message" ps = Some message ->
  Js.truthy message = true ->
  chat_message N8N_URL req remote t
  = try_catch
      (response <- fetch
                     (mkRequest (N8N_BASE_URL N8N_URL ++ "/chat-message")
                        "POST" json_headers
                        (json_body (Js.Obj [("message", message)]))) ;;
       data <- json response ;;
       res_json (status response) data)%js
      (fun error =>
         log (LogError "프록시 오류 (chat-message):" error) ;;;
         res_json 500
           (Js.Obj [("success", Js.Bool false);
                    ("error", Js.Str (Js.err_message error))]))%js
      remote t.
Proof.
  intros Hb Hl Ht. unfold chat_message, try_catch, Net.bind at 1.
  rewrite Hb. simpl Js.destructure. rewrite Hl. simpl lift.
  unfold ret at 1. rewrite Ht. reflexivity.
Qed.

End ServerFacts.

(** C8. When the body of a [POST /proxy/chat-message] request carries a
    truthy (for a string: non-empty) [message], exactly one request is
    forwarded, and its body is [JSON.stringify({ message })]: whatever
    else the incoming body holds, [session_id] included, is not
    forwarded. For a string message the body is the text
    [{"message":m}]. *)
Theorem chat_message_forwards_message_only
        (N8N_URL : option string) (req : Server.Req)
        (ps : list (string * Js.Val)) (message : Js.Val)
        (remote : Net.Remote) (t : Net.Trace) :
  Server.body req = Js.Obj ps ->
  Js.lookup "message" ps = Some message ->
  Js.truthy message = true ->
  Net.fetches (snd (Server.chat_message N8N_URL req remote t))
  = (Net.fetches t ++
       [Net.mkRequest (Server.N8N_BASE_URL N8N_URL ++ "/chat-message") "POST"
          Net.json_headers
          (Net.json_body (Js.Obj [("message", message)]))])%list
  /\ forall m, message = Js.Str m ->
               Net.json_body (Js.Obj [("message", message)])
               = Some (Net.TextBody (Spec.chat_body m)).
Proof.
  intros Hb Hl Ht. split.
  - rewrite (chat_message_run N8N_URL req ps message remote t Hb Hl Ht).
    rewrite forward_run.
    destruct (remote _ _) as [e|rsp]; [reflexivity|].
    destruct (Net.decoded rsp); reflexivity.
  - intros m ->. apply json_body_message.
Qed.

Lemma chat_message_forwards_message_only_witness :
  Net.fetches
    (snd (Server.chat_message None
            (Server.mkReq "POST" "/proxy/chat-message" None
               (Js.Obj [("session_id", Js.Str "s1");
                        ("message", Js.Str "hi");
                        ("extra", Js.Num 7)]))
            (Sample.answering 200 (Js.Obj [])) Net.start))
  = [Net.mkRequest "https://n8n.seedfarm.co.kr/webhook/chat-message" "POST"
       Net.json_headers
       (Some (Net.TextBody
                ("{" ++ Str.quoted "message" ++ ":" ++ Str.quoted "hi"
                   ++ "}")))].
Proof.
  exact (proj1 (chat_message_forwards_message_only None
                  (Server.mkReq "POST" "/proxy/chat-message" None
                     (Js.Obj [("session_id", Js.Str "s1");
                              ("message", Js.Str "hi");
                              ("extra", Js.Num 7)]))
                  [("session_id", Js.Str "s1"); ("message", Js.Str "hi");
                   ("extra", Js.Num 7)]
                  (Js.Str "hi") (Sample.answering 200 (Js.Obj [])) Net.start
                  eq_refl eq_refl eq_refl)).
Defined.

(** C2, amended. For a request whose path is the exact, lower-case text
    [/proxy] followed by [suffix], the generic route calls fetch once,
    with the remote base address followed by [suffix], the incoming
    method and a JSON content type. The call carries a body, the JSON
    text of [req.body], when the method is not GET and [req.body] is
    truthy, and carries none otherwise; what is tested is [req.body],
    not whether the incoming request had a body. When the fetch
    resolves with a status and a body that decodes, the route replies
    with that status and that decoded value, and nothing else happens;
    when the fetch is rejected (as it is for a HEAD request, which is
    handed to fetch with a body), the route logs the error and replies
    500 with its message. *)
Theorem proxy_all_forwards
        (N8N_URL : option string) (req : Server.Req) (suffix : string)
        (remote : Net.Remote) (t : Net.Trace) :
  Server.path req = "/proxy" ++ suffix ->
  exists b : option Net.Body,
    let rq := Net.mkRequest (Server.N8N_BASE_URL N8N_URL ++ suffix)
                (Server.method req) Net.json_headers b in
    Net.fetches (snd (Server.proxy_all N8N_URL req remote t))
    = (Net.fetches t ++ [rq])%list
    /\ (Server.method req <> "GET" ->
        Js.truthy (Server.body req) = true ->
        exists text, Js.stringify (Server.body req) = Some text
                     /\ b = Some (Net.TextBody text))
    /\ (Server.method req = "GET" \/ Js.truthy (Server.body req) = false ->
        b = None)
    /\ (forall st data,
           remote (List.length (Net.fetches t)) rq
           = inr (Net.mkResponse st (inr data)) ->
           Server.proxy_all N8N_URL req remote t
           = (inr tt,
              Net.mkTrace (Net.fetches t ++ [rq]) (Net.console t)
                (Net.sent t ++ [Net.mkReply st data])))
    /\ (forall e,
           remote (List.length (Net.fetches t)) rq = inl e ->
           Server.proxy_all N8N_URL req remote t
           = (inr tt,
              Net.mkTrace (Net.fetches t ++ [rq])
                (Net.console t ++ [Net.LogError "프록시 오류:" e])
                (Net.sent t ++
                   [Net.mkReply 500
                      (Js.Obj [("success", Js.Bool false);
                               ("error", Js.Str (Js.err_message e))])]))).
Proof.
  intros Hp.
  exists (if negb (String.eqb (Server.method req) "GET")
             && Js.truthy (Server.body req)
          then Net.json_body (Server.body req) else None).
  cbv zeta. unfold Server.proxy_all. rewrite Hp, replace_prefix.
  change (EmptyString ++ suffix) with suffix.
  rewrite forward_run. repeat split.
  - destruct (remote _ _) as [e|rsp]; [reflexivity|].
    destruct (Net.decoded rsp); reflexivity.
  - intros Hm Ht. destruct (truthy_stringify _ Ht) as [text Htext].
    exists text. split; [exact Htext|].
    destruct (String.eqb_spec (Server.method req) "GET") as [E|_];
      [contradiction|].
    rewrite Ht. unfold Net.json_body. now rewrite Htext.
  - intros [Hm | Ht].
    + rewrite Hm. reflexivity.
    + rewrite Ht, andb_false_r. reflexivity.
  - intros st data ->. reflexivity.
  - intros e ->. reflexivity.
Qed.

Lemma proxy_all_forwards_witness :
  Server.proxy_all None
    (Server.mkReq "PUT" "/proxy/foo/bar" None (Js.Obj [("a", Js.Num 1)]))
    (Sample.answering 201 (Js.Obj [("ok", Js.Bool true)])) Net.start
  = (inr tt,
     Net.mkTrace
       [Net.mkRequest "https://n8n.seedfarm.co.kr/webhook/foo/bar" "PUT"
          Net.json_headers
          (Some (Net.TextBody ("{" ++ Str.quoted "a" ++ ":1}")))]
       []
       [Net.mkReply 201 (Js.Obj [("ok", Js.Bool true)])]).
Proof.
  destruct (proxy_all_forwards None
              (Server.mkReq "PUT" "/proxy/foo/bar" None
                 (Js.Obj [("a", Js.Num 1)]))
              "/foo/bar"
              (Sample.answering 201 (Js.Obj [("ok", Js.Bool true)]))
              Net.start eq_refl)
    as [b [_ [Hb [_ [Hrelay _]]]]].
  destruct Hb as [text [Htext ->]]; [discriminate | reflexivity |].
  injection Htext as <-.
  exact (Hrelay 201%Z _ eq_refl).
Defined.

(** The claim C2 as first stated fails twice. A PUT on [/PROXY/foo/bar]
    reaches the route and has the suffix [/foo/bar], yet it is not
    forwarded to the base followed by [/foo/bar]. And a PUT without a
    body, for which [express.json()] leaves the empty object in
    [req.body], is not forwarded without a body. *)
Lemma proxy_all_claim_fails :
  (Spec.route_suffix "/PROXY/foo/bar" = Some "/foo/bar"
   /\ Net.fetches
        (snd (Server.proxy_all None
                (Server.mkReq "PUT" "/PROXY/foo/bar" None
                   (Js.Obj [("a", Js.Num 1)]))
                (Sample.answering 201 (Js.Obj [])) Net.start))
      <> [Net.mkRequest (Server.N8N_BASE_URL None ++ "/foo/bar") "PUT"
            Net.json_headers (Net.json_body (Js.Obj [("a", Js.Num 1)]))])
  /\ Net.fetches
       (snd (Server.proxy_all None
               (Server.mkReq "PUT" "/proxy/foo/bar" None
                  (Spec.parsed_body None))
               (Sample.answering 201 (Js.Obj [])) Net.start))
     <> [Net.mkRequest (Server.N8N_BASE_URL None ++ "/foo/bar") "PUT"
           Net.json_headers None].
Proof.
  split; [split; [reflexivity|]|]; vm_compute; intros H; inversion H.
Qed.

(** What the two requests of the counterexample, and a HEAD request,
    make the route hand to fetch. *)
Example proxy_all_edge_calls :
  Net.fetches
    (snd (Server.proxy_all None
            (Server.mkReq "PUT" "/PROXY/foo/bar" None
               (Js.Obj [("a", Js.Num 1)]))
            (Sample.answering 201 (Js.Obj [])) Net.start))
  = [Net.mkRequest "https://n8n.seedfarm.co.kr/webhook/PROXY/foo/bar" "PUT"
       Net.json_headers
       (Some (Net.TextBody ("{" ++ Str.quoted "a" ++ ":1}")))]
  /\ Net.fetches
       (snd (Server.proxy_all None
               (Server.mkReq "PUT" "/proxy/foo/bar" None
                  (Spec.parsed_body None))
               (Sample.answering 201 (Js.Obj [])) Net.start))
     = [Net.mkRequest "https://n8n.seedfarm.co.kr/webhook/foo/bar" "PUT"
          Net.json_headers (Some (Net.TextBody "{}"))]
  /\ Net.fetches
       (snd (Server.proxy_all None
               (Server.mkReq "HEAD" "/proxy/foo/bar" None
                  (Spec.parsed_body None))
               Sample.unreachable Net.start))
     = [Net.mkRequest "https://n8n.seedfarm.co.kr/webhook/foo/bar" "HEAD"
          Net.json_headers (Some (Net.TextBody "{}"))].
Proof. repeat split. Qed.

(** C1. On a typed proxy route whose required input is absent (no file
    attachment for capture-analyze, no [image] or no [message] property
    in the parsed body for the other two), the handler replies once,
    with status 400 and the route's error object, and issues no request
    to the remote service. Whenever a handler of these routes issues a
    request, the required input is present. *)
Theorem typed_route_requires_input
        (N8N_URL : option string) (r : Server.Route) (f : Spec.Field)
        (req : Server.Req) (remote : Net.Remote) (t : Net.Trace) :
  Spec.required r = Some f ->
  (Js.nullish (Server.body req) = false ->
   Spec.present f req = false ->
   Server.handler N8N_URL r req remote t
   = (inr tt,
      Net.mkTrace (Net.fetches t) (Net.console t)
        (Net.sent t ++
           [Net.mkReply 400
              (Js.Obj [("success", Js.Bool false);
                       ("error", Js.Str (Spec.missing_input r))])])))
  /\ (Net.fetches (snd (Server.handler N8N_URL r req remote t))
      <> Net.fetches t ->
      Spec.present f req = true).
Proof.
  intros Hr. destruct r; simpl in Hr; inversion Hr; subst f; clear Hr;
    unfold Spec.present, Server.handler.
  - (* capture-analyze *)
    unfold Server.capture_analyze, Server.proxyFormData.
    destruct (Server.file req) as [u|]; split; try discriminate; auto.
    all: try (intros H; now contradiction H).
  - (* disease-diagnosis *)
    unfold Server.disease_diagnosis.
    destruct (Server.body req) as [| |b|n|s|items|ps]; simpl;
      split; try discriminate; auto;
      try (intros H; now contradiction H).
    + intros _ H. destruct (Js.lookup "image" ps); [discriminate | reflexivity].
    + destruct (Js.lookup "image" ps) as [v|]; [reflexivity|].
      intros H. now contradiction H.
  - (* chat-message *)
    unfold Server.chat_message.
    destruct (Server.body req) as [| |b|n|s|items|ps]; simpl;
      split; try discriminate; auto;
      try (intros H; now contradiction H).
    + intros _ H. destruct (Js.lookup "message" ps); [discriminate | reflexivity].
    + destruct (Js.lookup "message" ps) as [v|]; [reflexivity|].
      intros H. now contradiction H.
Qed.

Lemma typed_route_requires_input_witness :
  Spec.required Server.DiseaseDiagnosis = Some (Spec.BodyField "image")
  /\ Server.handler None Server.DiseaseDiagnosis
       (Server.mkReq "POST" "/proxy/disease-diagnosis" None
          (Js.Obj [("mimeType", Js.Str "image/png")]))
       (Sample.answering 200 (Js.Obj [])) Net.start
     = (inr tt,
        Net.mkTrace [] []
          [Net.mkReply 400
             (Js.Obj [("success", Js.Bool false);
                      ("error", Js.Str Server.image_required)])]).
Proof.
  split; [reflexivity|].
  exact (proj1 (typed_route_requires_input None Server.DiseaseDiagnosis
                  (Spec.BodyField "image")
                  (Server.mkReq "POST" "/proxy/disease-diagnosis" None
                     (Js.Obj [("mimeType", Js.Str "image/png")]))
                  (Sample.answering 200 (Js.Obj [])) Net.start eq_refl)
           eq_refl eq_refl).
Defined.

(** ** Failed forwards *)

Section Failures.

Import Net Server.

Variable N8N_URL : option string.

(** A handler either issues no request at all, or is the forward of one
    request guarded by its [catch] clause. *)
Lemma handler_shape (r : Route) (req : Req) (remote : Remote) (t : Trace) :
  fetches (snd (handler N8N_URL r req remote t)) = fetches t
  \/ exists rq label,
      handler N8N_URL r req remote t
      = try_catch
          (response <- fetch rq ;;
           data <- json response ;;
           res_json (status response) data)%js
          (fun error =>
             log (LogError label error) ;;;
             res_json 500 (Spec.failure_payload r error))%js
          remote t.
Proof.
  destruct r; unfold handler.
  - unfold capture_analyze, proxyFormData.
    destruct (file req) as [u|]; [right | left; reflexivity].
    eexists _, _. reflexivity.
  - unfold disease_diagnosis.
    destruct (body req) as [| |b|n|s|items|ps]; try (left; reflexivity).
    simpl Js.destructure.
    destruct (Js.lookup "image" ps) as [v|]; [|left; reflexivity].
    destruct (Js.truthy v) eqn:Hv.
    + right. eexists _, _. unfold try_catch, Net.bind at 1 2, lift, ret.
      rewrite Hv. reflexivity.
    + left. unfold try_catch, Net.bind, lift, ret. rewrite Hv. reflexivity.
  - unfold chat_message.
    destruct (body req) as [| |b|n|s|items|ps]; try (left; reflexivity).
    simpl Js.destructure.
    destruct (Js.lookup "message" ps) as [v|]; [|left; reflexivity].
    destruct (Js.truthy v) eqn:Hv.
    + right. eexists _, _. unfold try_catch, Net.bind at 1, lift, ret.
      rewrite Hv. reflexivity.
    + left. unfold try_catch, Net.bind, lift, ret. rewrite Hv. reflexivity.
  - right. unfold proxy_all. eexists _, _. reflexivity.
Qed.

(** No route retries: a request adds at most one fetch. *)
Lemma at_most_one_fetch (r : Route) (req : Req) (remote : Remote) (t : Trace) :
  fetches (snd (handler N8N_URL r req remote t)) = fetches t
  \/ exists rq,
      fetches (snd (handler N8N_URL r req remote t)) = (fetches t ++ [rq])%list.
Proof.
  destruct (handler_shape r req remote t) as [H | [rq [label ->]]];
    [now left | right].
  exists rq. rewrite forward_run.
  destruct (remote _ _) as [e|rsp]; [reflexivity|].
  destruct (decoded rsp); reflexivity.
Qed.

(** A failed forward is answered once, with status 500, the message of
    the caught error and, on the routes of [Spec.with_hint] only, the
    hint. *)
Lemma forward_failure_reply (r : Route) (req : Req) (remote : Remote)
      (t : Trace) (rq : Request) (e : Js.Error) :
  fetches (snd (handler N8N_URL r req remote t)) = (fetches t ++ [rq])%list ->
  Spec.forward_fails (remote (List.length (fetches t)) rq) e ->
  sent (snd (handler N8N_URL r req remote t))
  = (sent t ++ [mkReply 500 (Spec.failure_payload r e)])%list.
Proof.
  intros Hf Hfail.
  destruct (handler_shape r req remote t) as [H | [rq0 [label Hrun]]].
  - rewrite H in Hf. symmetry in Hf. now apply unchanged_no_new_fetch in Hf.
  - rewrite Hrun in *. rewrite forward_run in *.
    assert (rq0 = rq) as ->.
    { destruct (remote _ rq0) as [e0|rsp]; [|destruct (decoded rsp)];
        simpl in Hf; apply app_inv_head in Hf; congruence. }
    destruct Hfail as [-> | [st ->]]; reflexivity.
Qed.

End Failures.

(** C3. The claim asks for the hint on every proxy route; the chat and
    the generic route answer a failed forward without it. With the
    remote unreachable, [POST /proxy/chat-message] and [PUT
    /proxy/foo/bar] each try once and reply 500 with [success] and the
    error message only, whereas [POST /proxy/disease-diagnosis] adds the
    hint. *)
Theorem failed_forward_hint_missing :
  Server.chat_message None
    (Server.mkReq "POST" "/proxy/chat-message" None
       (Js.Obj [("message", Js.Str "hi")]))
    Sample.unreachable Net.start
  = (inr tt,
     Net.mkTrace
       [Net.mkRequest "https://n8n.seedfarm.co.kr/webhook/chat-message"
          "POST" Net.json_headers
          (Some (Net.TextBody (Spec.chat_body "hi")))]
       [Net.LogError "프록시 오류 (chat-message):"
          (Js.mkError "TypeError" "fetch failed")]
       [Net.mkReply 500
          (Js.Obj [("success", Js.Bool false);
                   ("error", Js.Str "fetch failed")])])
  /\ Net.sent
       (snd (Server.proxy_all None
               (Server.mkReq "PUT" "/proxy/foo/bar" None (Js.Obj []))
               (Sample.garbled 502) Net.start))
     = [Net.mkReply 500
          (Js.Obj [("success", Js.Bool false);
                   ("error", Js.Str "Unexpected token < in JSON")])]
  /\ Net.sent
       (snd (Server.disease_diagnosis None
               (Server.mkReq "POST" "/proxy/disease-diagnosis" None
                  (Js.Obj [("image", Js.Str "QUJD")]))
               Sample.unreachable Net.start))
     = [Net.mkReply 500
          (Js.Obj [("success", Js.Bool false);
                   ("error", Js.Str "fetch failed");
                   ("hint", Js.Str Server.hint)])].
Proof. repeat split. Qed.

(* ================================================================== *)
(** * Further properties of the code *)
(* ================================================================== *)

(** ** Character codes that can be read back *)

Section Codes.

Lemma strip_prefix_inv (a b r : string) :
  Str.strip_prefix a b = Some r -> b = a ++ r.
Proof.
  revert b. induction a as [|c a IH]; simpl; intros b H.
  - now inversion H.
  - destruct b as [|d b]; [discriminate|].
    destruct (Ascii.eqb_spec c d) as [->|]; [|discriminate].
    now rewrite (IH _ H).
Qed.

Lemma app_inv_head_str (a x y : string) : a ++ x = a ++ y -> x = y.
Proof.
  induction a as [|c a IH]; simpl; intros H; [exact H|].
  inversion H. auto.
Qed.

Lemma length_app_str (a b : string) :
  String.length (a ++ b) = String.length a + String.length b.
Proof. induction a as [|c a IH]; simpl; [reflexivity | now rewrite IH]. Qed.

Lemma app_inv_tail_str (x y z : string) : x ++ z = y ++ z -> x = y.
Proof.
  revert y. induction x as [|c x IH]; intros [|d y] H; simpl in H.
  - reflexivity.
  - apply (f_equal String.length) in H. simpl in H.
    rewrite length_app_str in H. lia.
  - apply (f_equal String.length) in H. simpl in H.
    rewrite length_app_str in H. lia.
  - inversion H. f_equal. now apply IH.
Qed.

(** Of two texts with a common extension, one starts the other. *)
Lemma common_extension (a b x y : string) :
  a ++ x = b ++ y -> Spec.starts a b = true \/ Spec.starts b a = true.
Proof.
  unfold Spec.starts. revert b.
  induction a as [|c a IH]; intros b H.
  - left. reflexivity.
  - destruct b as [|d b]; [right; reflexivity|].
    simpl in H. inversion H; subst d. simpl. rewrite Ascii.eqb_refl.
    now apply IH.
Qed.

Lemma all_ascii_complete (c : ascii) : In c Spec.all_ascii.
Proof.
  unfold Spec.all_ascii. rewrite <- (ascii_nat_embedding c).
  apply in_map, in_seq. pose proof (nat_ascii_bounded c). lia.
Qed.

Lemma prefix_free_spec (f : ascii -> string) :
  Spec.prefix_free f = true ->
  forall c1 c2, Spec.starts (f c1) (f c2) = true -> c1 = c2.
Proof.
  unfold Spec.prefix_free. intros H c1 c2 Hs.
  rewrite List.forallb_forall in H.
  specialize (H c1 (all_ascii_complete c1)).
  rewrite List.forallb_forall in H.
  specialize (H c2 (all_ascii_complete c2)).
  rewrite Hs in H. simpl in H. rewrite orb_false_r in H.
  now apply Ascii.eqb_eq.
Qed.

(** A text written character by character in a prefix-free code with
    non-empty code words determines the characters. *)
Lemma code_injective (f : ascii -> string) (enc : string -> string) :
  Spec.prefix_free f = true ->
  (forall c, f c <> EmptyString) ->
  enc EmptyString = EmptyString ->
  (forall c r, enc (String c r) = f c ++ enc r) ->
  forall s1 s2, enc s1 = enc s2 -> s1 = s2.
Proof.
  intros Hfree Hne Hnil Hcons.
  assert (Hnz : forall c r, f c ++ r <> EmptyString).
  { intros c r H. specialize (Hne c). destruct (f c); [congruence|discriminate]. }
  induction s1 as [|c1 r1 IH]; intros [|c2 r2] H.
  - reflexivity.
  - rewrite Hnil, Hcons in H. symmetry in H. now apply Hnz in H.
  - rewrite Hnil, Hcons in H. now apply Hnz in H.
  - rewrite !Hcons in H.
    assert (c1 = c2) as ->.
    { destruct (common_extension _ _ _ _ H) as [Hs|Hs];
        [|symmetry]; now apply (prefix_free_spec f Hfree). }
    apply app_inv_head_str in H. f_equal. now apply IH.
Qed.

Lemma uri_code_prefix_free : Spec.prefix_free Spec.uri_code = true.
Proof. vm_compute. reflexivity. Qed.

Lemma escape_char_prefix_free : Spec.prefix_free Js.escape_char = true.
Proof. vm_compute. reflexivity. Qed.

Lemma encodeURIComponent_injective (s1 s2 : string) :
  Js.encodeURIComponent s1 = Js.encodeURIComponent s2 -> s1 = s2.
Proof.
  apply (code_injective Spec.uri_code).
  - exact uri_code_prefix_free.
  - intros c. unfold Spec.uri_code, Js.percent.
    destruct (Js.uri_unreserved c); discriminate.
  - reflexivity.
  - reflexivity.
Qed.

Lemma escape_injective (s1 s2 : string) :
  Js.escape s1 = Js.escape s2 -> s1 = s2.
Proof.
  apply (code_injective Js.escape_char).
  - exact escape_char_prefix_free.
  - intros c. destruct c as [[] [] [] [] [] [] [] []]; discriminate.
  - reflexivity.
  - reflexivity.
Qed.

End Codes.

(** ** More on the client library *)

(** X1. Thread identifiers are encoded without loss: two calls of
    [getChatHistoryDetail], or of [deleteChatHistory], that issue the
    same request were given the same [threadId]. *)
Theorem thread_requests_distinct (t1 t2 : string)
        (remote : Net.Remote) (t : Net.Trace) :
  Net.fetches (snd (Client.getChatHistoryDetail t1 remote t))
  = Net.fetches (snd (Client.getChatHistoryDetail t2 remote t))
  \/ Net.fetches (snd (Client.deleteChatHistory t1 remote t))
     = Net.fetches (snd (Client.deleteChatHistory t2 remote t)) ->
  t1 = t2.
Proof.
  unfold Client.getChatHistoryDetail, Client.deleteChatHistory.
  rewrite !fetch_json_run. simpl.
  intros [H | H]; apply app_inv_head in H; inversion H as [Hurl];
    now apply encodeURIComponent_injective.
Qed.

Lemma thread_requests_distinct_witness :
  "a&b" = "a&b".
Proof.
  exact (thread_requests_distinct "a&b" "a&b" Sample.unreachable Net.start
           (or_introl eq_refl)).
Defined.



(** X3. Whatever the arguments, the one request of an endpoint function
    has one of three forms: a bare GET or DELETE; a POST with JSON text
    and the JSON content type (or with no body at all); a POST with a
    multipart form and no header of its own. The console and the
    replies are left alone. *)
Theorem client_request_forms (c : Client.Call)
        (remote : Net.Remote) (t : Net.Trace) :
  exists rq,
    snd (Client.invoke c remote t)
    = Net.mkTrace (Net.fetches t ++ [rq]) (Net.console t) (Net.sent t)
    /\ Spec.client_form rq.
Proof.
  assert (Hjson : forall u v, Spec.client_form (Client.POST_json u v)).
  { intros u v. right. split; [reflexivity|]. simpl.
    unfold Net.json_body. now destruct (Js.stringify v). }
  destruct c; eexists; (split; [apply (f_equal snd (fetch_json_run _ _ _))|]);
    try apply Hjson;
    try (left; repeat split; auto; fail);
    try (right; split; reflexivity).
Qed.

Lemma stringify_none_iff (v : Js.Val) :
  Js.stringify v = None <-> v = Js.Undefined.
Proof. destruct v; simpl; split; intros H; try discriminate; reflexivity. Qed.

(** X4. Leaving an optional argument out is passing its default: one
    hour of history, page 1 with 10 entries, 7 days of diary, the MIME
    type [image/jpeg], the API key [tomato-farm-2024], no session. Only
    [undefined] is defaulted: [diagnoseDisease(b, null)] sends the
    object whose [mimeType] is [null]. *)
Theorem optional_arguments_default :
  Client.getHistoryData None = Client.getHistoryData (Some 1%Z)
  /\ (forall page, Client.getChatHistoryList page None
                   = Client.getChatHistoryList page (Some 10%Z))
  /\ (forall limit, Client.getChatHistoryList None limit
                    = Client.getChatHistoryList (Some 1%Z) limit)
  /\ Client.getDiaryList None = Client.getDiaryList (Some 7%Z)
  /\ (forall b, Client.diagnoseDisease b Js.Undefined
                = Client.diagnoseDisease b (Js.Str "image/jpeg"))
  /\ (forall m, Client.appChat m Js.Undefined
                = Client.appChat m (Js.Str "tomato-farm-2024"))
  /\ (forall m, Client.sendChatMessage m Js.Undefined
                = Client.sendChatMessage m Js.Null)
  /\ (forall b remote t,
         Net.fetches (snd (Client.diagnoseDisease b Js.Null remote t))
         = (Net.fetches t ++
              [Client.POST_json (Client.BASE_URL ++ "/disease-diagnosis")
                 (Js.Obj [("image", b); ("mimeType", Js.Null)])])%list).
Proof.
  repeat split.
  intros b remote t. unfold Client.diagnoseDisease.
  now rewrite fetch_json_run.
Qed.

(** X5. [predictYield] and [saveDiary] send their argument as JSON
    text; the request has no body exactly when the argument is
    [undefined], and is still a POST announcing JSON. *)
Theorem json_post_body_absent_iff_undefined (v : Js.Val)
        (remote : Net.Remote) (t : Net.Trace) :
  exists b,
    Net.fetches (snd (Client.predictYield v remote t))
    = (Net.fetches t ++
         [Net.mkRequest (Client.BASE_URL ++ "/yield-prediction") "POST"
            Net.json_headers b])%list
    /\ Net.fetches (snd (Client.saveDiary v remote t))
       = (Net.fetches t ++
            [Net.mkRequest (Client.BASE_URL ++ "/app/diary") "POST"
               Net.json_headers b])%list
    /\ (b = None <-> v = Js.Undefined)
    /\ (forall text, Js.stringify v = Some text ->
                     b = Some (Net.TextBody text)).
Proof.
  exists (Net.json_body v).
  unfold Client.predictYield, Client.saveDiary. rewrite !fetch_json_run.
  repeat split.
  - unfold Net.json_body. intros H. apply stringify_none_iff.
    now destruct (Js.stringify v).
  - intros ->. reflexivity.
  - intros text H. unfold Net.json_body. now rewrite H.
Qed.

(** ** More on the base64 helper *)

(** X6. The promise of [fileToBase64] is settled by the first [load] or
    [error] event of the reader and by nothing else: it is fulfilled
    with the second comma-separated piece of the result, rejected with
    the error event, and stays pending when neither event comes. *)
Theorem fileToBase64_first_event_decides
        (reader : Client.FileReader) (file : Net.Blob) :
  Client.fileToBase64 reader file
  = match Spec.first_handled (reader file) with
    | Some (Client.OnLoad result) =>
        Client.Fulfilled (Client.after_comma result)
    | Some (Client.OnError error) => Client.Rejected error
    | Some Client.OtherEvent | None => Client.Pending
    end.
Proof.
  unfold Client.fileToBase64. generalize (reader file) as evs.
  induction evs as [|ev evs IH].
  - reflexivity.
  - destruct ev as [result|error|].
    + apply load_settles.
    + apply error_settles.
    + exact IH.
Qed.

(** X7. What [split(',')[1]] keeps of a result: nothing ([undefined])
    when the result holds no comma, and otherwise only the text between
    the first and the second comma, so that anything after a second
    comma is dropped. *)
Theorem after_comma_pieces :
  (forall result,
      Str.mem "," result = false ->
      Client.after_comma result = Js.Undefined)
  /\ (forall a b,
         Str.mem "," a = false -> Str.mem "," b = false ->
         Client.after_comma (a ++ "," ++ b) = Js.Str b)
  /\ (forall a b rest,
         Str.mem "," a = false -> Str.mem "," b = false ->
         Client.after_comma (a ++ "," ++ b ++ "," ++ rest) = Js.Str b).
Proof.
  unfold Client.after_comma. repeat split.
  - intros result H. now rewrite split_no_sep.
  - intros a b Ha Hb. change (a ++ "," ++ b) with (a ++ String "," b).
    rewrite split_app by exact Ha. now rewrite split_no_sep.
  - intros a b rest Ha Hb.
    change (a ++ "," ++ b ++ "," ++ rest)
      with (a ++ String "," (b ++ String "," rest)).
    rewrite split_app by exact Ha. now rewrite split_app.
Qed.

Lemma escape_base64 (p : string) :
  Str.forallb Spec.base64_char p = true -> Js.escape p = p.
Proof.
  induction p as [|c p IH]; simpl; intros H.
  - reflexivity.
  - apply andb_true_iff in H as [Hc Hp]. rewrite (IH Hp).
    revert Hc. destruct c as [[] [] [] [] [] [] [] []];
      (discriminate || reflexivity).
Qed.

(** X8. The documented use of the helper: when the read of [file] ends
    with the data URI of a base64 payload, the value [fileToBase64]
    gives, passed to [diagnoseDisease], is posted inside the JSON text
    unchanged (base64 text needs no escaping), beside the default MIME
    type: [{"image":<payload>,"mimeType":"image/jpeg"}]. *)
Theorem fileToBase64_then_diagnoseDisease
        (reader : Client.FileReader) (file : Net.Blob)
        (pre post : list Client.ReaderEvent) (mime payload : string)
        (remote : Net.Remote) (t : Net.Trace) :
  Spec.unhandled pre ->
  Str.mem "," mime = false ->
  Str.forallb Spec.base64_char payload = true ->
  reader file
  = (pre ++ Client.OnLoad ("data:" ++ mime ++ ";base64," ++ payload)
         :: post)%list ->
  exists base64,
    Client.fileToBase64 reader file = Client.Fulfilled base64
    /\ Net.fetches (snd (Client.diagnoseDisease base64 Js.Undefined remote t))
       = (Net.fetches t ++
            [Net.mkRequest (Client.BASE_URL ++ "/disease-diagnosis") "POST"
               Net.json_headers
               (Some (Net.TextBody
                        (Spec.diagnosis_body payload "image/jpeg")))])%list.
Proof.
  intros Hpre Hm Hp Hr. exists (Js.Str payload). split.
  - unfold Client.fileToBase64.
    rewrite Hr, (unhandled_skipped _ _ _ Hpre), load_settles.
    now rewrite (after_comma_data_uri _ _ Hm (base64_no_comma _ Hp)).
  - unfold Client.diagnoseDisease. rewrite fetch_json_run.
    unfold Client.POST_json, Net.json_body, Spec.diagnosis_body. simpl.
    unfold Js.quote. rewrite (escape_base64 _ Hp). simpl.
    unfold Str.quoted.
    repeat (progress (rewrite ?app_assoc_str; simpl)). reflexivity.
Qed.

Lemma fileToBase64_then_diagnoseDisease_witness :
  exists base64,
    Client.fileToBase64 Sample.loading Sample.png = Client.Fulfilled base64
    /\ Net.fetches (snd (Client.diagnoseDisease base64 Js.Undefined
                           Sample.unreachable Net.start))
       = [Net.mkRequest
            "https://n8n.seedfarm.co.kr/webhook/disease-diagnosis" "POST"
            Net.json_headers
            (Some (Net.TextBody (Spec.diagnosis_body "QUJD" "image/jpeg")))].
Proof.
  exact (fileToBase64_then_diagnoseDisease Sample.loading Sample.png
           [Client.OtherEvent] [] "image/png" "QUJD" Sample.unreachable
           Net.start (Forall_cons _ eq_refl (Forall_nil _))
           eq_refl eq_refl eq_refl).
Defined.

(** ** More on the proxy server *)

Section HandlerRuns.

Import Net Server.

Variable N8N_URL : option string.

(** The three ways a handler can go: the 400 of a typed route, a
    destructuring that throws into the [catch] clause, or the forward
    of one request to the configured base. *)
Lemma handler_cases (r : Route) (req : Req) (remote : Remote) (t : Trace) :
  (Spec.required r <> None
   /\ handler N8N_URL r req remote t
      = (inr tt,
         mkTrace (fetches t) (console t)
           (sent t ++
              [mkReply 400
                 (Js.Obj [("success", Js.Bool false);
                          ("error", Js.Str (Spec.missing_input r))])])))
  \/ (exists label e,
         handler N8N_URL r req remote t
         = (inr tt,
            mkTrace (fetches t) (console t ++ [LogError label e])
              (sent t ++ [mkReply 500 (Spec.failure_payload r e)])))
  \/ (exists rq label,
         prefix (N8N_BASE_URL N8N_URL) (url rq) = true
         /\ handler N8N_URL r req remote t
            = try_catch
                (response <- fetch rq ;;
                 data <- json response ;;
                 res_json (status response) data)%js
                (fun error =>
                   log (LogError label error) ;;;
                   res_json 500 (Spec.failure_payload r error))%js
                remote t).
Proof.
  destruct r; unfold handler.
  - unfold capture_analyze, proxyFormData.
    destruct (file req) as [u|].
    + right; right. eexists _, _. split; cycle 1; [reflexivity | apply prefix_app].
    + left. split; [discriminate | reflexivity].
  - unfold disease_diagnosis.
    destruct (body req) as [| |b|n|s|items|ps];
      try (left; split; [discriminate | reflexivity]);
      try (right; left; eexists _, _; reflexivity).
    simpl Js.destructure.
    destruct (Js.lookup "image" ps) as [v|];
      [|left; split; [discriminate | reflexivity]].
    destruct (Js.truthy v) eqn:Hv.
    + right; right. eexists _, _. split; cycle 1.
      * unfold try_catch, Net.bind at 1 2, lift, ret.
        rewrite Hv. reflexivity.
      * apply prefix_app.
    + left. split; [discriminate|].
      unfold try_catch, Net.bind, lift, ret. rewrite Hv. reflexivity.
  - unfold chat_message.
    destruct (body req) as [| |b|n|s|items|ps];
      try (left; split; [discriminate | reflexivity]);
      try (right; left; eexists _, _; reflexivity).
    simpl Js.destructure.
    destruct (Js.lookup "message" ps) as [v|];
      [|left; split; [discriminate | reflexivity]].
    destruct (Js.truthy v) eqn:Hv.
    + right; right. eexists _, _. split; cycle 1.
      * unfold try_catch, Net.bind at 1, lift, ret.
        rewrite Hv. reflexivity.
      * apply prefix_app.
    + left. split; [discriminate|].
      unfold try_catch, Net.bind, lift, ret. rewrite Hv. reflexivity.
  - right; right. unfold proxy_all. eexists _, _.
    split; cycle 1; [reflexivity | apply prefix_app].
Qed.

End HandlerRuns.


(** X10. On every proxy route, when the forwarded request is answered
    with a status and a body that decodes, the handler replies with
    that status and that value, and writes nothing to the console. *)
Theorem forward_success_reply
        (N8N_URL : option string) (r : Server.Route) (req : Server.Req)
        (remote : Net.Remote) (t : Net.Trace)
        (rq : Net.Request) (st : Z) (data : Js.Val) :
  Net.fetches (snd (Server.handler N8N_URL r req remote t))
  = (Net.fetches t ++ [rq])%list ->
  remote (List.length (Net.fetches t)) rq
  = inr (Net.mkResponse st (inr data)) ->
  Server.handler N8N_URL r req remote t
  = (inr tt,
     Net.mkTrace (Net.fetches t ++ [rq]) (Net.console t)
       (Net.sent t ++ [Net.mkReply st data])).
Proof.
  intros Hf Hr.
  destruct (handler_cases N8N_URL r req remote t)
    as [[_ H] | [[label [e H]] | [rq0 [label [_ H]]]]]; rewrite H in *.
  - simpl in Hf. symmetry in Hf. now apply unchanged_no_new_fetch in Hf.
  - simpl in Hf. symmetry in Hf. now apply unchanged_no_new_fetch in Hf.
  - rewrite forward_run in *.
    assert (rq0 = rq) as ->.
    { destruct (remote _ rq0) as [e0|rsp]; [|destruct (Net.decoded rsp)];
        simpl in Hf; apply app_inv_head in Hf; congruence. }
    rewrite Hr. reflexivity.
Qed.

Lemma forward_success_reply_witness :
  Server.handler None Server.CaptureAnalyze
    (Server.mkReq "POST" "/proxy/capture-analyze"
       (Some (Server.mkFile "ABC" "leaf.png" "image/png")) (Js.Obj []))
    (Sample.answering 201 (Js.Obj [("success", Js.Bool true)])) Net.start
  = (inr tt,
     Net.mkTrace
       [Net.mkRequest "https://n8n.seedfarm.co.kr/webhook/capture-analyze"
          "POST" Net.FormDataHeaders
          (Some (Net.FormBody
                   [("image", Net.FormBuffer "ABC" "leaf.png" "image/png")]))]
       []
       [Net.mkReply 201 (Js.Obj [("success", Js.Bool true)])]).
Proof.
  exact (forward_success_reply None Server.CaptureAnalyze
           (Server.mkReq "POST" "/proxy/capture-analyze"
              (Some (Server.mkFile "ABC" "leaf.png" "image/png")) (Js.Obj []))
           (Sample.answering 201 (Js.Obj [("success", Js.Bool true)]))
           Net.start _ 201%Z _ eq_refl eq_refl).
Defined.

(** X11. On every proxy route, when the forward fails (the fetch is
    rejected or the answer does not decode), the handler writes the
    caught error to the console once and replies once, with status 500,
    [success: false] and the message of that error; the hint is added
    by the capture-analyze and disease-diagnosis routes only. *)
Theorem failed_forward_logged_and_answered
        (N8N_URL : option string) (r : Server.Route) (req : Server.Req)
        (remote : Net.Remote) (t : Net.Trace)
        (rq : Net.Request) (e : Js.Error) :
  Net.fetches (snd (Server.handler N8N_URL r req remote t))
  = (Net.fetches t ++ [rq])%list ->
  Spec.forward_fails (remote (List.length (Net.fetches t)) rq) e ->
  exists label,
    Server.handler N8N_URL r req remote t
    = (inr tt,
       Net.mkTrace (Net.fetches t ++ [rq])
         (Net.console t ++ [Net.LogError label e])
         (Net.sent t ++ [Net.mkReply 500 (Spec.failure_payload r e)])).
Proof.
  intros Hf Hfail.
  destruct (handler_cases N8N_URL r req remote t)
    as [[_ H] | [[label [e0 H]] | [rq0 [label [_ H]]]]]; rewrite H in *.
  - simpl in Hf. symmetry in Hf. now apply unchanged_no_new_fetch in Hf.
  - simpl in Hf. symmetry in Hf. now apply unchanged_no_new_fetch in Hf.
  - rewrite forward_run in *. exists label.
    assert (rq0 = rq) as ->.
    { destruct (remote _ rq0) as [e0|rsp]; [|destruct (Net.decoded rsp)];
        simpl in Hf; apply app_inv_head in Hf; congruence. }
    destruct Hfail as [-> | [st ->]]; reflexivity.
Qed.

Lemma failed_forward_logged_and_answered_witness :
  exists label,
    Server.handler None Server.ProxyAll
      (Server.mkReq "GET" "/proxy/data-realtime" None (Js.Obj []))
      (Sample.garbled 502) Net.start
    = (inr tt,
       Net.mkTrace
         [Net.mkRequest "https://n8n.seedfarm.co.kr/webhook/data-realtime"
            "GET" Net.json_headers None]
         [Net.LogError label
            (Js.mkError "SyntaxError" "Unexpected token < in JSON")]
         [Net.mkReply 500
            (Js.Obj [("success", Js.Bool false);
                     ("error", Js.Str "Unexpected token < in JSON")])]).
Proof.
  exact (failed_forward_logged_and_answered None Server.ProxyAll
           (Server.mkReq "GET" "/proxy/data-realtime" None (Js.Obj []))
           (Sample.garbled 502) Net.start _ _ eq_refl
           (or_intror (ex_intro _ 502%Z eq_refl))).
Defined.

Section JsonRoutes.

Import Net Server.

Variable N8N_URL : option string.

Lemma disease_diagnosis_run (req : Req) (ps : list (string * Js.Val))
      (image : Js.Val) (remote : Remote) (t : Trace) :
  body req = Js.Obj ps ->
  Js.lookup "image" ps = Some image ->
  Js.truthy image = true ->
  disease_diagnosis N8N_URL req remote t
  = try_catch
      (response <- fetch
                     (mkRequest (N8N_BASE_URL N8N_URL ++ "/disease-diagnosis")
                        "POST" json_headers
                        (json_body
                           (Js.Obj
                              [("image", image);
                               ("mimeType",
                                Js.or_else (Spec.prop "mimeType" (Js.Obj ps))
                                  (Js.Str "image/jpeg"))]))) ;;
       data <- json response ;;
       res_json (status response) data)%js
      (fun error =>
         log (LogError "프록시 오류 (disease-diagnosis):" error) ;;;
         res_json 500
           (Js.Obj [("success", Js.Bool false);
                    ("error", Js.Str (Js.err_message error));
                    ("hint", Js.Str hint)]))%js
      remote t.
Proof.
  intros Hb Hl Ht. unfold disease_diagnosis, try_catch, Net.bind at 1 2.
  rewrite Hb. simpl Js.destructure. rewrite Hl. simpl lift.
  unfold ret at 1 2. cbv beta iota. rewrite Ht. reflexivity.
Qed.

(** A falsy or missing required property ends a JSON route with its
    400 reply. *)
Lemma json_route_falsy (r : Route) (k : string) (req : Req)
      (ps : list (string * Js.Val)) (remote : Remote) (t : Trace) :
  Spec.required r = Some (Spec.BodyField k) ->
  body req = Js.Obj ps ->
  Js.truthy (Spec.prop k (Js.Obj ps)) = false ->
  handler N8N_URL r req remote t
  = (inr tt,
     mkTrace (fetches t) (console t)
       (sent t ++
          [mkReply 400
             (Js.Obj [("success", Js.Bool false);
                      ("error", Js.Str (Spec.missing_input r))])])).
Proof.
  intros Hr Hb Hv. unfold Spec.prop in Hv.
  destruct r; simpl in Hr; inversion Hr; subst k; clear Hr; unfold handler.
  - unfold disease_diagnosis, try_catch, Net.bind at 1 2.
    rewrite Hb. simpl Js.destructure. simpl lift.
    unfold ret at 1 2. cbv beta iota. rewrite Hv. reflexivity.
  - unfold chat_message, try_catch, Net.bind at 1.
    rewrite Hb. simpl Js.destructure. simpl lift.
    unfold ret at 1. cbv beta iota. rewrite Hv. reflexivity.
Qed.

End JsonRoutes.

(** X12. The presence test of the JSON routes is a truthiness test: a
    required property that is there but falsy (the empty string, [0],
    [false], [null]) is refused like a missing one, with the 400 reply
    and no request; a truthy one leads to exactly one request. *)
Theorem json_route_tests_truthiness
        (N8N_URL : option string) (r : Server.Route) (k : string)
        (req : Server.Req) (ps : list (string * Js.Val))
        (remote : Net.Remote) (t : Net.Trace) :
  Spec.required r = Some (Spec.BodyField k) ->
  Server.body req = Js.Obj ps ->
  (Js.truthy (Spec.prop k (Js.Obj ps)) = false ->
   Server.handler N8N_URL r req remote t
   = (inr tt,
      Net.mkTrace (Net.fetches t) (Net.console t)
        (Net.sent t ++
           [Net.mkReply 400
              (Js.Obj [("success", Js.Bool false);
                       ("error", Js.Str (Spec.missing_input r))])])))
  /\ (Js.truthy (Spec.prop k (Js.Obj ps)) = true ->
      exists rq,
        Net.fetches (snd (Server.handler N8N_URL r req remote t))
        = (Net.fetches t ++ [rq])%list).
Proof.
  intros Hr Hb. split; [now apply json_route_falsy|].
  intros Hv.
  assert (Hone : forall rq label pl,
             exists rq',
               Net.fetches
                 (snd (Net.try_catch
                         (response <- Net.fetch rq ;;
                          data <- Net.json response ;;
                          Net.res_json (Net.status response) data)%js
                         (fun error =>
                            Net.log (Net.LogError label error) ;;;
                            Net.res_json 500 (pl error))%js
                         remote t))
               = (Net.fetches t ++ [rq'])%list).
  { intros rq label pl. exists rq. rewrite forward_run.
    destruct (remote _ rq) as [e|rsp]; [|destruct (Net.decoded rsp)];
      reflexivity. }
  unfold Spec.prop in Hv.
  destruct r; simpl in Hr; inversion Hr; subst k; clear Hr;
    unfold Server.handler;
    (destruct (Js.lookup _ ps) as [v|] eqn:Hl; [|discriminate]).
  - rewrite (disease_diagnosis_run N8N_URL req ps v remote t Hb Hl Hv).
    apply (Hone _ _ (fun error =>
                       Js.Obj [("success", Js.Bool false);
                               ("error", Js.Str (Js.err_message error));
                               ("hint", Js.Str Server.hint)])).
  - rewrite (chat_message_run N8N_URL req ps v remote t Hb Hl Hv).
    apply (Hone _ _ (fun error =>
                       Js.Obj [("success", Js.Bool false);
                               ("error", Js.Str (Js.err_message error))])).
Qed.

Lemma json_route_tests_truthiness_witness :
  Server.handler None Server.ChatMessage
    (Server.mkReq "POST" "/proxy/chat-message" None
       (Js.Obj [("message", Js.Str EmptyString);
                ("session_id", Js.Str "s1")]))
    (Sample.answering 200 (Js.Obj [])) Net.start
  = (inr tt,
     Net.mkTrace [] []
       [Net.mkReply 400
          (Js.Obj [("success", Js.Bool false);
                   ("error", Js.Str Server.message_required)])]).
Proof.
  exact (proj1 (json_route_tests_truthiness None Server.ChatMessage "message"
                  (Server.mkReq "POST" "/proxy/chat-message" None
                     (Js.Obj [("message", Js.Str EmptyString);
                              ("session_id", Js.Str "s1")]))
                  [("message", Js.Str EmptyString);
                   ("session_id", Js.Str "s1")]
                  (Sample.answering 200 (Js.Obj [])) Net.start
                  eq_refl eq_refl)
           eq_refl).
Defined.

(** X13. With a truthy [image] in the body, the disease-diagnosis route
    forwards one POST whose body is the JSON text of an object with the
    two keys [image] and [mimeType] and nothing else of the incoming
    body. The MIME type is the incoming one when that is truthy and
    [image/jpeg] otherwise, so that a [null] or empty [mimeType] is
    replaced as well. *)
Theorem disease_diagnosis_forwards_image_and_type
        (N8N_URL : option string) (req : Server.Req)
        (ps : list (string * Js.Val)) (image : Js.Val)
        (remote : Net.Remote) (t : Net.Trace) :
  Server.body req = Js.Obj ps ->
  Js.lookup "image" ps = Some image ->
  Js.truthy image = true ->
  exists mimeType,
    Net.fetches (snd (Server.disease_diagnosis N8N_URL req remote t))
    = (Net.fetches t ++
         [Net.mkRequest (Server.N8N_BASE_URL N8N_URL ++ "/disease-diagnosis")
            "POST" Net.json_headers
            (Net.json_body
               (Js.Obj [("image", image); ("mimeType", mimeType)]))])%list
    /\ (Js.truthy (Spec.prop "mimeType" (Js.Obj ps)) = true ->
        mimeType = Spec.prop "mimeType" (Js.Obj ps))
    /\ (Js.truthy (Spec.prop "mimeType" (Js.Obj ps)) = false ->
        mimeType = Js.Str "image/jpeg").
Proof.
  intros Hb Hl Ht.
  exists (Js.or_else (Spec.prop "mimeType" (Js.Obj ps)) (Js.Str "image/jpeg")).
  repeat split.
  - rewrite (disease_diagnosis_run N8N_URL req ps image remote t Hb Hl Ht).
    rewrite forward_run.
    destruct (remote _ _) as [e|rsp]; [|destruct (Net.decoded rsp)];
      reflexivity.
  - unfold Js.or_else. now intros ->.
  - unfold Js.or_else. now intros ->.
Qed.

Lemma disease_diagnosis_forwards_image_and_type_witness :
  exists mimeType,
    Net.fetches
      (snd (Server.disease_diagnosis None
              (Server.mkReq "POST" "/proxy/disease-diagnosis" None
                 (Js.Obj [("image", Js.Str "QUJD"); ("mimeType", Js.Null);
                          ("note", Js.Str "x")]))
              Sample.unreachable Net.start))
    = [Net.mkRequest "https://n8n.seedfarm.co.kr/webhook/disease-diagnosis"
         "POST" Net.json_headers
         (Net.json_body
            (Js.Obj [("image", Js.Str "QUJD"); ("mimeType", mimeType)]))]
    /\ mimeType = Js.Str "image/jpeg".
Proof.
  destruct (disease_diagnosis_forwards_image_and_type None
              (Server.mkReq "POST" "/proxy/disease-diagnosis" None
                 (Js.Obj [("image", Js.Str "QUJD"); ("mimeType", Js.Null);
                          ("note", Js.Str "x")]))
              [("image", Js.Str "QUJD"); ("mimeType", Js.Null);
               ("note", Js.Str "x")]
              (Js.Str "QUJD") Sample.unreachable Net.start
              eq_refl eq_refl eq_refl)
    as [mimeType [Hf [_ Hm]]].
  exists mimeType. split; [exact Hf | exact (Hm eq_refl)].
Defined.

(** X14. With an attachment, [proxyFormData] calls fetch once, with
    POST, the base address followed by the target path, the headers of
    the form and, as body, the form object it built: the single field
    [image] holding the uploaded buffer under its original file name
    and MIME type. Method, path and body of the incoming request play
    no part. This is about the arguments of the call; what fetch then
    writes on the wire for that object is not covered. *)
Theorem proxyFormData_fetch_arguments
        (N8N_URL : option string) (req : Server.Req) (targetPath : string)
        (f : Server.UploadedFile) (remote : Net.Remote) (t : Net.Trace) :
  Server.file req = Some f ->
  Net.fetches (snd (Server.proxyFormData N8N_URL req targetPath remote t))
  = (Net.fetches t ++
       [Net.mkRequest (Server.N8N_BASE_URL N8N_URL ++ targetPath) "POST"
          Net.FormDataHeaders
          (Some (Net.FormBody
                   [("image",
                     Net.FormBuffer (Server.buffer f) (Server.originalname f)
                       (Server.mimetype f))]))])%list.
Proof.
  intros Hf. unfold Server.proxyFormData. rewrite Hf, forward_run.
  destruct (remote _ _) as [e|rsp]; [|destruct (Net.decoded rsp)];
    reflexivity.
Qed.

Lemma proxyFormData_fetch_arguments_witness :
  Net.fetches
    (snd (Server.proxyFormData (Some "http://192.168.49.200:5679/webhook")
            (Server.mkReq "POST" "/proxy/capture-analyze"
               (Some (Server.mkFile "ABC" "leaf.png" "image/png"))
               (Js.Obj [("image", Js.Str "ignored")]))
            "/capture-analyze" (Sample.garbled 200) Net.start))
  = [Net.mkRequest "http://192.168.49.200:5679/webhook/capture-analyze" "POST"
       Net.FormDataHeaders
       (Some (Net.FormBody
                [("image", Net.FormBuffer "ABC" "leaf.png" "image/png")]))].
Proof.
  exact (proxyFormData_fetch_arguments
           (Some "http://192.168.49.200:5679/webhook")
           (Server.mkReq "POST" "/proxy/capture-analyze"
              (Some (Server.mkFile "ABC" "leaf.png" "image/png"))
              (Js.Obj [("image", Js.Str "ignored")]))
           "/capture-analyze" (Server.mkFile "ABC" "leaf.png" "image/png")
           (Sample.garbled 200) Net.start eq_refl).
Defined.

Lemma replace_absent (pat rep s : string) :
  Spec.occurs pat s = false -> Str.replace pat rep s = s.
Proof.
  induction s as [|c s IH]; intros H; rewrite replace_unfold;
    simpl in H; destruct (Str.strip_prefix pat _); try discriminate.
  - reflexivity.
  - now rewrite (IH H).
Qed.

(** X15. The generic route removes [/proxy] only where it finds it: a
    path in which the text [/proxy] does not occur (exactly, in lower
    case) is forwarded whole, to the base address followed by the
    unchanged path. *)
Theorem proxy_all_keeps_other_paths
        (N8N_URL : option string) (req : Server.Req)
        (remote : Net.Remote) (t : Net.Trace) :
  Spec.occurs "/proxy" (Server.path req) = false ->
  exists b,
    Net.fetches (snd (Server.proxy_all N8N_URL req remote t))
    = (Net.fetches t ++
         [Net.mkRequest (Server.N8N_BASE_URL N8N_URL ++ Server.path req)
            (Server.method req) Net.json_headers b])%list.
Proof.
  intros H. eexists. unfold Server.proxy_all.
  rewrite (replace_absent _ _ _ H), forward_run.
  destruct (remote _ _) as [e|rsp]; [|destruct (Net.decoded rsp)];
    reflexivity.
Qed.

Lemma proxy_all_keeps_other_paths_witness :
  exists b,
    Net.fetches
      (snd (Server.proxy_all None
              (Server.mkReq "GET" "/PROXY/data-realtime" None (Js.Obj []))
              Sample.unreachable Net.start))
    = [Net.mkRequest "https://n8n.seedfarm.co.kr/webhook/PROXY/data-realtime"
         "GET" Net.json_headers b].
Proof.
  exact (proxy_all_keeps_other_paths None
           (Server.mkReq "GET" "/PROXY/data-realtime" None (Js.Obj []))
           Sample.unreachable Net.start eq_refl).
Defined.

Section Advertised.

Import Net Server.

Variable N8N_URL : option string.

(** A typed route forwards by POST to its own remote path. *)
Lemma typed_forward_address (r : Route) (f : Spec.Field) (req : Req)
      (remote : Remote) (t : Trace) (rq : Request) :
  Spec.required r = Some f ->
  fetches (snd (handler N8N_URL r req remote t)) = (fetches t ++ [rq])%list ->
  Net.method rq = "POST"
  /\ url rq = N8N_BASE_URL N8N_URL ++ Spec.target r.
Proof.
  intros Hr Hf.
  assert (Hsame : fetches t <> (fetches t ++ [rq])%list)
    by (intros E; symmetry in E; now apply unchanged_no_new_fetch in E).
  assert (Hfwd : forall rq0 h,
             fetches (snd (try_catch
                             (response <- fetch rq0 ;;
                              data <- json response ;;
                              res_json (status response) data)%js
                             (fun error =>
                                log (LogError (fst h) error) ;;;
                                res_json 500 (snd h error))%js
                             remote t))
             = (fetches t ++ [rq])%list -> rq0 = rq).
  { intros rq0 h. rewrite forward_run.
    destruct (remote _ rq0) as [e|rsp]; [|destruct (decoded rsp)];
      simpl; intros E; apply app_inv_head in E; congruence. }
  destruct r; simpl in Hr; inversion Hr; subst f; clear Hr.
  - unfold handler, capture_analyze, proxyFormData in Hf.
    destruct (file req) as [u|]; [|now contradiction Hsame].
    apply (Hfwd _ (_, fun error => _)) in Hf. subst rq. split; reflexivity.
  - destruct (body req) as [| |b|n|s|items|ps] eqn:Hb;
      try (unfold handler, disease_diagnosis in Hf; rewrite Hb in Hf;
           now contradiction Hsame).
    destruct (Js.lookup "image" ps) as [v|] eqn:Hl.
    + destruct (Js.truthy v) eqn:Hv.
      * unfold handler in Hf.
        rewrite (disease_diagnosis_run N8N_URL req ps v remote t Hb Hl Hv)
          in Hf.
        apply (Hfwd _ (_, fun error => _)) in Hf. subst rq.
        split; reflexivity.
      * rewrite (json_route_falsy N8N_URL DiseaseDiagnosis "image" req ps
                   remote t eq_refl Hb) in Hf;
          [now contradiction Hsame | unfold Spec.prop; now rewrite Hl].
    + rewrite (json_route_falsy N8N_URL DiseaseDiagnosis "image" req ps
                 remote t eq_refl Hb) in Hf;
        [now contradiction Hsame | unfold Spec.prop; now rewrite Hl].
  - destruct (body req) as [| |b|n|s|items|ps] eqn:Hb;
      try (unfold handler, chat_message in Hf; rewrite Hb in Hf;
           now contradiction Hsame).
    destruct (Js.lookup "message" ps) as [v|] eqn:Hl.
    + destruct (Js.truthy v) eqn:Hv.
      * unfold handler in Hf.
        rewrite (chat_message_run N8N_URL req ps v remote t Hb Hl Hv) in Hf.
        apply (Hfwd _ (_, fun error => _)) in Hf. subst rq.
        split; reflexivity.
      * rewrite (json_route_falsy N8N_URL ChatMessage "message" req ps
                   remote t eq_refl Hb) in Hf;
          [now contradiction Hsame | unfold Spec.prop; now rewrite Hl].
    + rewrite (json_route_falsy N8N_URL ChatMessage "message" req ps
                 remote t eq_refl Hb) in Hf;
        [now contradiction Hsame | unfold Spec.prop; now rewrite Hl].
Qed.

End Advertised.

(** X16. The documentation routes answer on their own: [GET /] and
    [GET /api-docs.json] reply once with status 200 and contact
    neither the remote service nor the console. For each typed proxy
    route, the endpoint that the health check advertises is the method
    and the address of the request that route forwards. *)
Theorem health_advertises_forward_targets
        (N8N_URL env_PORT : option string) (swaggerDocument : Js.Val)
        (req : Server.Req) (remote : Net.Remote) (t : Net.Trace) :
  exists info,
    Server.health N8N_URL env_PORT req remote t
    = (inr tt,
       Net.mkTrace (Net.fetches t) (Net.console t)
         (Net.sent t ++ [Net.mkReply 200 info]))
    /\ Server.api_docs_json swaggerDocument req remote t
       = (inr tt,
          Net.mkTrace (Net.fetches t) (Net.console t)
            (Net.sent t ++ [Net.mkReply 200 swaggerDocument]))
    /\ Spec.prop "api_server" info = Js.Str (Server.N8N_BASE_URL N8N_URL)
    /\ forall r f req' remote' t' rq,
        Spec.required r = Some f ->
        Net.fetches (snd (Server.handler N8N_URL r req' remote' t'))
        = (Net.fetches t' ++ [rq])%list ->
        Spec.prop (Spec.endpoint_name r) (Spec.prop "endpoints" info)
        = Js.Str (Net.method rq ++ " " ++ Net.url rq).
Proof.
  eexists. split; [reflexivity|]. split; [reflexivity|].
  split; [reflexivity|].
  intros r f req' remote' t' rq Hr Hf.
  destruct (typed_forward_address N8N_URL r f req' remote' t' rq Hr Hf)
    as [-> ->].
  destruct r; simpl in Hr; try discriminate; reflexivity.
Qed.

(** ** The client library in front of the proxy *)

(** X17. The disease-diagnosis proxy is transparent to
    [diagnoseDisease]: for a non-empty image and a MIME type that is
    omitted or truthy, a proxy on the default base that receives the
    object the client serialises forwards the very request the client
    would send to the remote service directly. *)
Theorem diagnosis_proxy_is_transparent
        (b : string) (mimeType : Js.Val) (req : Server.Req)
        (remote remote' : Net.Remote) (t t' : Net.Trace) :
  b <> EmptyString ->
  mimeType = Js.Undefined \/ Js.truthy mimeType = true ->
  Server.body req
  = Js.Obj [("image", Js.Str b);
            ("mimeType", Js.default_arg mimeType (Js.Str "image/jpeg"))] ->
  exists rq,
    Net.fetches (snd (Client.diagnoseDisease (Js.Str b) mimeType remote t))
    = (Net.fetches t ++ [rq])%list
    /\ Net.fetches (snd (Server.disease_diagnosis None req remote' t'))
       = (Net.fetches t' ++ [rq])%list.
Proof.
  intros Hb Hm Hreq. eexists. split.
  - unfold Client.diagnoseDisease. rewrite fetch_json_run. reflexivity.
  - rewrite (disease_diagnosis_run None req _ (Js.Str b) remote' t' Hreq
               eq_refl (truthy_nonempty b Hb)).
    rewrite forward_run.
    assert (Hor : Js.or_else
                    (Spec.prop "mimeType"
                       (Js.Obj [("image", Js.Str b);
                                ("mimeType",
                                 Js.default_arg mimeType
                                   (Js.Str "image/jpeg"))]))
                    (Js.Str "image/jpeg")
                  = Js.default_arg mimeType (Js.Str "image/jpeg")).
    { simpl. unfold Js.or_else.
      destruct Hm as [-> | Hm]; [reflexivity|].
      destruct mimeType; try discriminate; simpl in *; now rewrite ?Hm. }
    rewrite Hor.
    destruct (remote' _ _) as [e|rsp]; [|destruct (Net.decoded rsp)];
      reflexivity.
Qed.

Lemma diagnosis_proxy_is_transparent_witness :
  exists rq,
    Net.fetches (snd (Client.diagnoseDisease (Js.Str "QUJD") Js.Undefined
                        Sample.unreachable Net.start))
    = [rq]
    /\ Net.fetches
         (snd (Server.disease_diagnosis None
                 (Server.mkReq "POST" "/proxy/disease-diagnosis" None
                    (Js.Obj [("image", Js.Str "QUJD");
                             ("mimeType", Js.Str "image/jpeg")]))
                 (Sample.answering 200 (Js.Obj [])) Net.start))
       = [rq].
Proof.
  refine (diagnosis_proxy_is_transparent "QUJD" Js.Undefined
            (Server.mkReq "POST" "/proxy/disease-diagnosis" None
               (Js.Obj [("image", Js.Str "QUJD");
                        ("mimeType", Js.Str "image/jpeg")]))
            Sample.unreachable (Sample.answering 200 (Js.Obj []))
            Net.start Net.start _ (or_introl eq_refl) eq_refl).
  discriminate.
Defined.

(** X18. Through the chat proxy a session is lost: for a non-empty
    message, a proxy on the default base that receives the object
    [sendChatMessage(m, s)] serialises forwards, whatever [s] is, the
    request that [sendChatMessage(m)] without a session sends
    directly. *)
Theorem chat_proxy_forwards_sessionless_request
        (m : string) (sessionId : Js.Val) (req : Server.Req)
        (remote remote' : Net.Remote) (t t' : Net.Trace) :
  m <> EmptyString ->
  Server.body req
  = Js.Obj (if Js.truthy (Js.default_arg sessionId Js.Null)
            then [("message", Js.Str m);
                  ("session_id", Js.default_arg sessionId Js.Null)]
            else [("message", Js.Str m)]) ->
  exists rq,
    Net.fetches (snd (Client.sendChatMessage (Js.Str m) sessionId remote t))
    = (Net.fetches t ++
         [Client.POST_json (Client.BASE_URL ++ "/chat-message")
            (Server.body req)])%list
    /\ Net.fetches (snd (Server.chat_message None req remote' t'))
       = (Net.fetches t' ++ [rq])%list
    /\ Net.fetches (snd (Client.sendChatMessage (Js.Str m) Js.Undefined
                           remote t))
       = (Net.fetches t ++ [rq])%list.
Proof.
  intros Hm Hreq. eexists. split; [|split].
  - rewrite sendChatMessage_request, Hreq. reflexivity.
  - assert (Hl : exists ps, Server.body req = Js.Obj ps
                            /\ Js.lookup "message" ps = Some (Js.Str m)).
    { rewrite Hreq.
      destruct (Js.truthy (Js.default_arg sessionId Js.Null));
        eexists; split; reflexivity. }
    destruct Hl as [ps [Hb Hl]].
    rewrite (chat_message_run None req ps (Js.Str m) remote' t' Hb Hl
               (truthy_nonempty m Hm)).
    rewrite forward_run.
    destruct (remote' _ _) as [e|rsp]; [|destruct (Net.decoded rsp)];
      reflexivity.
  - rewrite sendChatMessage_request. reflexivity.
Qed.

Lemma chat_proxy_forwards_sessionless_request_witness :
  exists rq,
    Net.fetches (snd (Client.sendChatMessage (Js.Str "hi") (Js.Str "s1")
                        Sample.unreachable Net.start))
    = [Client.POST_json (Client.BASE_URL ++ "/chat-message")
         (Js.Obj [("message", Js.Str "hi"); ("session_id", Js.Str "s1")])]
    /\ Net.fetches
         (snd (Server.chat_message None
                 (Server.mkReq "POST" "/proxy/chat-message" None
                    (Js.Obj [("message", Js.Str "hi");
                             ("session_id", Js.Str "s1")]))
                 (Sample.answering 200 (Js.Obj [])) Net.start))
       = [rq]
    /\ Net.fetches (snd (Client.sendChatMessage (Js.Str "hi") Js.Undefined
                           Sample.unreachable Net.start))
       = [rq].
Proof.
  refine (chat_proxy_forwards_sessionless_request "hi" (Js.Str "s1")
            (Server.mkReq "POST" "/proxy/chat-message" None
               (Js.Obj [("message", Js.Str "hi");
                        ("session_id", Js.Str "s1")]))
            Sample.unreachable (Sample.answering 200 (Js.Obj []))
            Net.start Net.start _ eq_refl).
  discriminate.
Defined.

(** X19. The message can be read back from what [sendChatMessage]
    sends: with the same session argument, two message strings that
    lead to the same request are the same string. *)
Theorem chat_requests_distinct (m1 m2 : string) (sessionId : Js.Val)
        (remote : Net.Remote) (t : Net.Trace) :
  Net.fetches (snd (Client.sendChatMessage (Js.Str m1) sessionId remote t))
  = Net.fetches (snd (Client.sendChatMessage (Js.Str m2) sessionId remote t)) ->
  m1 = m2.
Proof.
  rewrite !sendChatMessage_request. intros H. apply app_inv_head in H.
  unfold Client.POST_json, Net.json_body in H.
  apply escape_injective.
  destruct (Js.truthy (Js.default_arg sessionId Js.Null));
    simpl in H; inversion H as [Htext]; clear H.
  - destruct (Js.stringify (Js.default_arg sessionId Js.Null)) as [text|];
      simpl in Htext; unfold Js.quote, Str.quoted in Htext; simpl in Htext;
      inversion Htext as [Hm]; repeat (apply app_inv_tail_str in Hm);
      exact Hm.
  - unfold Js.quote, Str.quoted in Htext. simpl in Htext.
    inversion Htext as [Hm]. repeat (apply app_inv_tail_str in Hm).
    exact Hm.
Qed.

Lemma chat_requests_distinct_witness :
  "hi" = "hi".
Proof.
  exact (chat_requests_distinct "hi" "hi" (Js.Str "s1") Sample.unreachable
           Net.start eq_refl).
Defined.
